(** * Smart Inventory AI: the inventory forecast pipeline

    A shallow embedding of the three cooperating Python modules of the
    AI service

      - [forecaster.py]   (ForecasterEngine: normalisation and analysis),
      - [db_connector.py] (DBConnector: the store gateway),
      - [app.py]          (the batch orchestrator),

    together with the properties of the design document that concern them.

    Numbers.  The quantities handled by the service are Python floats
    (pandas float64 columns), and the development has them twice.

    The modules [Forecaster], [DBConnector], [App], [MongoStore] and
    [Deployment] idealise them as exact rationals [Q]; the one float
    value the idealisation cannot represent, NaN, only arises as the
    mean of an empty column and is represented by [None] (see [mean]).
    The properties stated over these modules are those of the control
    flow of the service: which histories and products are rejected, what
    is counted, what is written, and what a forecast without demand or
    without stock leads to.

    The modules [Float64], [Frame], [Analyzer] and [Orchestrator] take
    them as they are: IEEE 754 binary64 numbers with the sums of numpy
    and pandas, a history as the frame that pandas makes of it, the
    [try] of [generate_forecast] around the model and the analysis
    alike, and a model that draws from the random generator of the
    process.  The properties of the depletion loop, the monthly demand,
    the trend, the normalised series, the prediction window and the
    order of the products are stated over these.

    Timestamps are integers (seconds since the epoch) and a calendar day
    is the integer quotient of a timestamp by [86400]; a formatted date
    string ["%Y-%m-%d"] is represented by its day number. *)

From Stdlib Require Import String.
From Stdlib Require Import ZArith QArith Qround Qabs List Bool Lia Lqa.
From Stdlib Require Import Permutation Sorted.
Import ListNotations.

Local Open Scope Z_scope.

(** ** Numeric helpers *)

Module Num.

(** [x <= y] and [x < y] on rationals, as booleans. *)
Definition Qleb (x y : Q) : bool := Qle_bool x y.
Definition Qltb (x y : Q) : bool := negb (Qle_bool y x).

(** Python's [max(0, y)]: [y] when [y > 0], otherwise the first
    argument [0]. *)
Definition max0 (y : Q) : Q := if Qltb 0 y then y else 0%Q.

(** [Series.clip(lower=0)] on one value: values below 0 become 0. *)
Definition clip_lower0 (y : Q) : Q := if Qltb y 0 then 0%Q else y.

(** [Series.sum()]: left-to-right accumulation starting from 0. *)
Definition qsum (l : list Q) : Q := fold_left Qplus l 0%Q.

(** [Series.mean()]: NaN ([None]) on an empty column. *)
Definition mean (l : list Q) : option Q :=
  match l with
  | [] => None
  | _ => Some (qsum l / inject_Z (Z.of_nat (length l)))%Q
  end.

(** Comparisons of possibly-NaN floats: any comparison with NaN is
    false. *)
Definition nan_ltb (a b : option Q) : bool :=
  match a, b with
  | Some x, Some y => Qltb x y
  | _, _ => false
  end.

Definition nan_scale (a : option Q) (c : Q) : option Q :=
  match a with
  | Some x => Some (x * c)%Q
  | None => None
  end.

(** Python's [int(x)] on a float: truncation toward zero. *)
Definition int_trunc (q : Q) : Z := Z.quot (Qnum q) (Zpos (Qden q)).

(** [DataFrame.head(n)] and [DataFrame.tail(n)]. *)
Definition head {A} (n : nat) (l : list A) : list A := firstn n l.
Definition tail {A} (n : nat) (l : list A) : list A :=
  skipn (length l - n) l.

End Num.

(** ** Exceptions

    A call that may raise returns [Ret v] or [Raise msg]; [try_except]
    is the [try: ... except Exception as e: ...] block. *)

Module Exc.

Inductive t (A : Type) : Type :=
| Ret (a : A)
| Raise (msg : string).
Arguments Ret {A} a.
Arguments Raise {A} msg.

Definition bind {A B} (m : t A) (k : A -> t B) : t B :=
  match m with
  | Ret a => k a
  | Raise msg => Raise msg
  end.

Definition try_except {A} (body : t A) (handler : string -> A) : A :=
  match body with
  | Ret a => a
  | Raise msg => handler msg
  end.

End Exc.

Notation "x <- m ;; k" := (Exc.bind m (fun x => k))
  (at level 61, m at next level, right associativity).

(** ** forecaster.py *)

Module Forecaster.
Import Num.

(** *** Raw history rows

    A history is a list of dicts.  After [df.rename(columns=col_map)] a
    row has a ['ds'] cell and a ['y'] cell; a cell is [None] when the dict
    has no such key (the frame holds NaN there, and the column does not
    exist at all when no row has the key). *)

Inductive DsVal : Type :=
| DsNull                 (* None / NaN: converted to NaT *)
| DsUnparseable          (* a value [pd.to_datetime] cannot parse *)
| DsTime (t : Z).        (* a timestamp, seconds since the epoch *)

Inductive YVal : Type :=
| YNonNumeric            (* None, NaN, text that is not a number *)
| YNum (q : Q).

Record RawObservation : Type := {
  raw_ds : option DsVal;
  raw_y : option YVal
}.

Definition has_column {A} (cell : RawObservation -> option A)
    (history : list RawObservation) : bool :=
  existsb (fun r => match cell r with Some _ => true | None => false end)
    history.

(** [df['ds']] and [df['y']] raise KeyError when the column is absent. *)
Definition column {A} (name : string) (cell : RawObservation -> option A)
    (history : list RawObservation) : Exc.t (list (option A)) :=
  if has_column cell history then Exc.Ret (map cell history)
  else Exc.Raise name.

(** [pd.to_datetime(col)] with the default [errors='raise']: missing
    values become NaT ([None]); a value that cannot be parsed raises. *)
Fixpoint to_datetime (col : list (option DsVal)) : Exc.t (list (option Z)) :=
  match col with
  | [] => Exc.Ret []
  | c :: rest =>
      match c with
      | Some DsUnparseable => Exc.Raise "Unknown datetime string format"
      | Some (DsTime t) =>
          ts <- to_datetime rest ;; Exc.Ret (Some t :: ts)
      | Some DsNull | None =>
          ts <- to_datetime rest ;; Exc.Ret (None :: ts)
      end
  end.

(** [pd.to_numeric(col, errors='coerce').fillna(0)]. *)
Definition to_numeric_coerce_fillna0 (c : option YVal) : Q :=
  match c with
  | Some (YNum q) => q
  | Some YNonNumeric | None => 0%Q
  end.

(** [df.dropna(subset=['ds', 'y'])]: ['y'] holds no NaN any more, so the
    rows dropped are those whose ['ds'] is NaT. *)
Fixpoint dropna (rows : list (option Z * Q)) : list (Z * Q) :=
  match rows with
  | [] => []
  | (Some t, q) :: rest => (t, q) :: dropna rest
  | (None, _) :: rest => dropna rest
  end.

(** [df.groupby('ds').sum()]: one row per distinct timestamp, keys in
    ascending order, the quantities of equal timestamps added up. *)
Fixpoint group_add (t : Z) (q : Q) (g : list (Z * Q)) : list (Z * Q) :=
  match g with
  | [] => [(t, q)]
  | (t', q') :: g' =>
      if t <? t' then (t, q) :: g
      else if t =? t' then (t', (q' + q)%Q) :: g'
      else (t', q') :: group_add t q g'
  end.

Definition group_step (g : list (Z * Q)) (r : Z * Q) : list (Z * Q) :=
  group_add (fst r) (snd r) g.

Definition groupby_sum (rows : list (Z * Q)) : list (Z * Q) :=
  fold_left group_step rows [].

(** Calendar day of a timestamp. *)
Definition day_of (t : Z) : Z := t / 86400.

Definition zrange (lo : Z) (n : nat) : list Z :=
  map (fun i => lo + Z.of_nat i) (seq 0 n).

Definition min_key (t0 : Z) (g : list (Z * Q)) : Z :=
  fold_left (fun m r => Z.min m (fst r)) g t0.
Definition max_key (t0 : Z) (g : list (Z * Q)) : Z :=
  fold_left (fun m r => Z.max m (fst r)) g t0.

(** Sum of the quantities of the rows of [g] that fall on day [d]. *)
Definition day_total (g : list (Z * Q)) (d : Z) : Q :=
  qsum (map snd (filter (fun r => day_of (fst r) =? d) g)).

(** [df.resample('D').sum().fillna(0)]: one bin per calendar day from the
    day of the smallest index to the day of the largest; a bin holds the
    sum of its rows, 0 when it has none.  The result is indexed by day. *)
Definition resample_D (g : list (Z * Q)) : list (Z * Q) :=
  match g with
  | [] => []
  | (t0, _) :: _ =>
      let lo := day_of (min_key t0 g) in
      let hi := day_of (max_key t0 g) in
      map (fun d => (d, day_total g d)) (zrange lo (Z.to_nat (hi - lo + 1)))
  end.

(** Lines 24-43 of [_preprocess_data]: the daily frame before the length
    test. *)
Definition daily_frame (history : list RawObservation)
    : Exc.t (list (Z * Q)) :=
  ds_col <- column "ds" raw_ds history ;;
  ds <- to_datetime ds_col ;;
  y_col <- column "y" raw_y history ;;
  let y := map to_numeric_coerce_fillna0 y_col in
  let df := dropna (combine ds y) in
  let df := groupby_sum df in
  Exc.Ret (resample_D df).

Definition _preprocess_data (history : list RawObservation)
    : option (list (Z * Q)) :=
  Exc.try_except
    (df <- daily_frame history ;;
     Exc.Ret (if (length df <? 10)%nat then None else Some df))
    (fun _ => None).

(** *** The forecast frame and the prediction *)

Record ForecastRow : Type := {
  ds : Z;                (* the day of the forecast point *)
  yhat : Q;
  yhat_lower : Q;
  yhat_upper : Q
}.

Inductive Trend : Type := Uptrend | Downtrend | Stable.
Inductive Confidence : Type := High | Low.

Record PredictionData : Type := {
  stock_out_date : option Z;
  predicted_monthly_demand : Z;
  trend : Trend;
  confidence : Confidence;
  forecast_data : list ForecastRow
}.

Inductive Prediction : Type :=
| InsufficientData                       (* {"status": "insufficient_data"} *)
| ModelError (message : string)          (* {"status": "error", ...} *)
| Success (p : PredictionData).          (* {"status": "success", ...} *)

(** Line 76: [future_data['yhat'].clip(lower=0).sum()]. *)
Definition predicted_demand (future_data : list ForecastRow) : Q :=
  qsum (map clip_lower0 (map yhat future_data)).

(** Lines 79-88: the depletion loop, with its [break]. *)
Fixpoint depletion_loop (running_stock : Q) (rows : list ForecastRow)
    : option Z :=
  match rows with
  | [] => None
  | row :: rest =>
      let daily_sales := max0 (yhat row) in
      let running_stock := (running_stock - daily_sales)%Q in
      if Qleb running_stock 0 then Some (ds row)
      else depletion_loop running_stock rest
  end.

(** Lines 92-100. *)
Definition start_sales (future_data : list ForecastRow) : option Q :=
  mean (map yhat (head 5 future_data)).
Definition end_sales (future_data : list ForecastRow) : option Q :=
  mean (map yhat (tail 5 future_data)).

Definition classify_trend (start_sales end_sales : option Q) : Trend :=
  if nan_ltb (nan_scale start_sales (11 # 10)) end_sales then Uptrend
  else if nan_ltb end_sales (nan_scale start_sales (9 # 10)) then Downtrend
  else Stable.

(** Lines 104-105. *)
Definition avg_spread (future_data : list ForecastRow) : option Q :=
  mean (map (fun row => (yhat_upper row - yhat_lower row)%Q) future_data).

Definition confidence_score (current_qty : Q)
    (future_data : list ForecastRow) : Confidence :=
  if nan_ltb (avg_spread future_data) (Some (current_qty * (2 # 10))%Q)
  then High else Low.

(** Lines 75-114: the analysis of the prediction window. *)
Definition analyze (current_qty : Q) (future_data : list ForecastRow)
    : PredictionData :=
  {| stock_out_date := depletion_loop current_qty future_data;
     predicted_monthly_demand := int_trunc (predicted_demand future_data);
     trend := classify_trend (start_sales future_data)
                (end_sales future_data);
     confidence := confidence_score current_qty future_data;
     forecast_data := tail 30 future_data |}.

Section Engine.

(** The external forecasting model: [Prophet(...).fit(df)] followed
    by [predict(make_future_dataframe(periods=30))].  It returns the
    forecast frame or raises. *)
Variable prophet : list (Z * Q) -> Exc.t (list ForecastRow).

Definition generate_forecast (current_qty : Q)
    (history : list RawObservation) : Prediction :=
  match _preprocess_data history with
  | None => InsufficientData
  | Some df =>
      Exc.try_except
        (forecast <- prophet df ;;
         let future_data := tail 30 forecast in
         Exc.Ret (Success (analyze current_qty future_data)))
        (fun e => ModelError e)
  end.

End Engine.

End Forecaster.

(** ** db_connector.py *)

Module DBConnector.

(** A product document as projected by the aggregation pipeline. *)
Record Product : Type := {
  _id : N;
  name : option string;
  quantity : option Q;
  history : option (list Forecaster.RawObservation)
}.

Record Update : Type := {
  upd_id : N;
  prediction : Forecaster.PredictionData
}.

Section Store.

(** [self.db.products.aggregate(pipeline)] for a given [$limit]: the
    documents, or an exception of the driver. *)
Variable aggregate : nat -> Exc.t (list Product).

Definition fetch_training_batch (limit : nat) : list Product :=
  Exc.try_except
    (products <- aggregate limit ;; Exc.Ret products)
    (fun _ => []).

End Store.

End DBConnector.

(** ** app.py *)

Module App.
Import Forecaster DBConnector.

(** The [stats] dict of [run_batch_prediction]. *)
Record Stats : Type := {
  uptrend : nat;
  downtrend : nat;
  critical : nat
}.

(** The JSON bodies the endpoint can answer with. *)
Inductive Body : Type :=
| NoData (message : string)
| Report (processed updated : nat) (insights : Stats)
| Failure (error : string).

(** What one request does: the response, its HTTP status, and the calls
    made to [db.bulk_update_predictions] (each with its update list). *)
Record Outcome : Type := {
  body : Body;
  status_code : Z;
  bulk_calls : list (list Update)
}.

Definition is_uptrend (t : Trend) : bool :=
  match t with Uptrend => true | _ => false end.
Definition is_downtrend (t : Trend) : bool :=
  match t with Downtrend => true | _ => false end.
(** Truth value of [prediction.get('stock_out_date')]: [None] is falsy, a
    formatted date is a non-empty string and so truthy. *)
Definition truthy_date (d : option Z) : bool :=
  match d with Some _ => true | None => false end.

Definition bump (b : bool) (n : nat) : nat := if b then S n else n.

Section Service.

Variable prophet : list (Z * Q) -> Exc.t (list ForecastRow).
Variable aggregate : nat -> Exc.t (list Product).

(** Lines 43-49: the prediction computed for one product. *)
Definition predict (p : Product) : Prediction :=
  let current_qty := match quantity p with Some q => q | None => 0%Q end in
  let history := match history p with Some h => h | None => [] end in
  generate_forecast prophet current_qty history.

(** Lines 43-61: one iteration of [for p in products]. *)
Definition loop_body (acc : list Update * Stats) (p : Product)
    : list Update * Stats :=
  let (updates, stats) := acc in
  let pid := _id p in
  match predict p with
  | Success pr =>
      (updates ++ [ {| upd_id := pid; prediction := pr |} ],
       {| uptrend := bump (is_uptrend (trend pr)) (uptrend stats);
          downtrend := bump (is_downtrend (trend pr)) (downtrend stats);
          critical := bump (truthy_date (stock_out_date pr))
                        (critical stats) |})
  | InsufficientData | ModelError _ => acc
  end.

(** Lines 38-61. *)
Definition product_loop (products : list Product) : list Update * Stats :=
  fold_left loop_body products
    ([], {| uptrend := 0; downtrend := 0; critical := 0 |}).

(** Lines 63-73: the bulk write, when there is something to write, and the
    report. *)
Definition report (products : list Product) : Outcome :=
  let (updates, stats) := product_loop products in
  {| body := Report (length products) (length updates) stats;
     status_code := 200;
     bulk_calls := match updates with [] => [] | _ => [updates] end |}.

(** [run_batch_prediction].  Its outer [try] has nothing to catch here:
    the fetch, the forecast and the bulk write all handle their own
    exceptions, so the 500 answer is not produced by this model. *)
Definition run_batch_prediction : Outcome :=
  let products := fetch_training_batch aggregate 2000 in
  match products with
  | [] =>
      {| body := NoData "No products with sufficient history found.";
         status_code := 200;
         bulk_calls := [] |}
  | _ :: _ => report products
  end.

End Service.

End App.

(** ** Notions of the design document

    These definitions follow the words of the document, not the code; the
    theorems below compare the code with them. *)

Module Design.
Import Num Forecaster DBConnector App.

(** Running stock after the first [k] forecast days: the current quantity
    less the clamped demand of those days. *)
Definition stock_after (current_qty : Q) (future : list ForecastRow)
    (k : nat) : Q :=
  (current_qty - qsum (map (fun row => max0 (yhat row)) (firstn k future)))%Q.

(** Day [k] (counted from 0) is the first on which the running stock is
    at most zero. *)
Definition first_depleted (current_qty : Q) (future : list ForecastRow)
    (k : nat) : Prop :=
  (stock_after current_qty future (S k) <= 0)%Q /\
  forall j, (j < k)%nat -> (0 < stock_after current_qty future (S j))%Q.

(** A forecast day without demand. *)
Definition zero_estimate (row : ForecastRow) : Prop := (yhat row == 0)%Q.

(** [z] is an integer nearest to [q]: what any rounding to the nearest
    integer returns, however it breaks ties. *)
Definition nearest_integer (q : Q) (z : Z) : Prop :=
  (Qabs (q - inject_Z z) <= 1 # 2)%Q.

(** The history rows that carry a date, with their coerced quantity. *)
Definition dated_rows (history : list RawObservation) : list (Z * Q) :=
  flat_map (fun r =>
    match raw_ds r with
    | Some (DsTime t) => [(t, to_numeric_coerce_fillna0 (raw_y r))]
    | _ => []
    end) history.

(** The calendar days on which the history has an observation. *)
Definition observed_days (history : list RawObservation) : list Z :=
  map (fun r => day_of (fst r)) (dated_rows history).

Section Batch.

Variable prophet : list (Z * Q) -> Exc.t (list ForecastRow).

(** The successful predictions of a batch, in batch order. *)
Definition successes (products : list Product) : list Update :=
  flat_map (fun p =>
    match predict prophet p with
    | Success pr => [ {| upd_id := _id p; prediction := pr |} ]
    | _ => []
    end) products.

Definition is_success (p : Product) : bool :=
  match predict prophet p with Success _ => true | _ => false end.

End Batch.

Definition count {A} (f : A -> bool) (l : list A) : nat :=
  length (filter f l).

(** The labels and the stock-out date carried by an update. *)
Definition has_trend (t : Trend) (u : Update) : bool :=
  match t, trend (prediction u) with
  | Uptrend, Uptrend | Downtrend, Downtrend | Stable, Stable => true
  | _, _ => false
  end.
Definition has_stock_out (u : Update) : bool :=
  match stock_out_date (prediction u) with
  | Some _ => true
  | None => false
  end.

(** The statistics of a list of successful predictions. *)
Definition stats_of (updates : list Update) : Stats :=
  {| uptrend := count (has_trend Uptrend) updates;
     downtrend := count (has_trend Downtrend) updates;
     critical := count has_stock_out updates |}.

End Design.

(** ** Sample data *)

Module Samples.
Import Num Forecaster DBConnector App.

(** [n] forecast rows from day [d0] on, all with point estimate [y]. *)
Definition flat_forecast (d0 : Z) (y : Q) (n : nat) : list ForecastRow :=
  map (fun d => {| ds := d; yhat := y;
                   yhat_lower := (y - 1)%Q; yhat_upper := (y + 1)%Q |})
    (zrange d0 n).

Definition obs (t : Z) (q : Q) : RawObservation :=
  {| raw_ds := Some (DsTime t); raw_y := Some (YNum q) |}.

(** Ten consecutive days, one sale of 3 units at noon of each. *)
Definition ten_days : list RawObservation :=
  map (fun d => obs (d * 86400 + 43200) 3) (zrange 100 10).

(** Sales on two days only. *)
Definition two_days : list RawObservation := [obs 0 1; obs 86400 2].

(** A row whose date is not a date. *)
Definition bad_date_row : RawObservation :=
  {| raw_ds := Some DsUnparseable; raw_y := Some (YNum 5) |}.

(** A stand-in for the model: it raises on a series without any sale and
    otherwise answers the history followed by 30 days at the level of the
    last observation. *)
Definition toy_prophet (df : list (Z * Q)) : Exc.t (list ForecastRow) :=
  if Qleb (qsum (map snd df)) 0 then Exc.Raise "fit failed"
  else
    let lastrow := last df (0, 0%Q) in
    Exc.Ret (flat_forecast (fst (hd (0, 0%Q) df)) (snd lastrow) (length df)
             ++ flat_forecast (fst lastrow + 1) (snd lastrow) 30).

(** Thirty days whose clamped estimates add up to 27/10. *)
Definition fractional_forecast : list ForecastRow :=
  {| ds := 1; yhat := 27 # 10; yhat_lower := 2; yhat_upper := 3 |}
  :: flat_forecast 2 0 29.

(** The normalised [ten_days]. *)
Definition ten_days_series : list (Z * Q) :=
  map (fun d => (d, 3%Q)) (zrange 100 10).

(** Product A has too little history, B makes the model fail, C is fine. *)
Definition product_A : Product :=
  {| _id := 1%N; name := Some "A"%string; quantity := Some 5%Q;
     history := Some two_days |}.
Definition product_B : Product :=
  {| _id := 2%N; name := Some "B"%string; quantity := Some 5%Q;
     history := Some (map (fun d => obs (d * 86400) 0) (zrange 100 12)) |}.
Definition product_C : Product :=
  {| _id := 3%N; name := None; quantity := Some 40%Q;
     history := Some ten_days |}.

Definition good_store (limit : nat) : Exc.t (list Product) :=
  Exc.Ret (firstn limit [product_A; product_B; product_C]).
Definition broken_store (limit : nat) : Exc.t (list Product) :=
  Exc.Raise "ServerSelectionTimeoutError".

End Samples.

(** ** db_connector.py: the connection *)

From Stdlib Require Import Ascii.

Module Connection.

(** Python's [s.split(sep)] for a one-character separator: the segments
    between the occurrences of [sep], empty segments included; never the
    empty list. *)
Fixpoint split_on (sep : Ascii.ascii) (s : string) : list string :=
  match s with
  | EmptyString => [EmptyString]
  | String c rest =>
      if Ascii.eqb c sep then EmptyString :: split_on sep rest
      else match split_on sep rest with
           | seg :: segs => String c seg :: segs
           | [] => [String c EmptyString]
           end
  end.

(** [c in s]. *)
Fixpoint mentions (c : Ascii.ascii) (s : string) : bool :=
  match s with
  | EmptyString => false
  | String c' rest => Ascii.eqb c' c || mentions c rest
  end.

Definition default_uri : string :=
  "mongodb://localhost:27017/smart_inventory"%string.

(** Line 29: [os.getenv("MONGO_URI", default)], the variable being set or
    not. *)
Definition uri_of (env : option string) : string :=
  match env with
  | Some uri => uri
  | None => default_uri
  end.

(** Line 30: [self.uri.split("/")[-1] or "smart_inventory"]. *)
Definition db_name (uri : string) : string :=
  match last (split_on "/"%char uri) EmptyString with
  | EmptyString => "smart_inventory"%string
  | seg => seg
  end.

(** What one attempt (lines 38-44: the client and its ping) does. *)
Inductive Attempt : Type :=
| Connected
| ConnectionFailure (msg : string)   (* ConnectionFailure or
                                        ServerSelectionTimeoutError *)
| OtherException (msg : string).     (* anything else: not caught *)

Inductive ConnectResult : Type :=
| Established (attempt : nat)        (* [return] at line 46 *)
| DatabaseConnectionError            (* [raise] at line 52 *)
| Propagated (msg : string).

(** The result, the number of attempts made and the seconds slept. *)
Record ConnectTrace : Type := {
  result : ConnectResult;
  attempts : nat;
  slept : nat
}.

(** Lines 36-52: [for attempt in range(retries)], from attempt number
    [attempt] on with [remaining] iterations left. *)
Fixpoint connect_loop (server : nat -> Attempt) (delay : nat)
    (remaining attempt slept_so_far : nat) : ConnectTrace :=
  match remaining with
  | O => {| result := DatabaseConnectionError;
            attempts := attempt; slept := slept_so_far |}
  | S remaining' =>
      match server attempt with
      | Connected =>
          {| result := Established attempt;
             attempts := S attempt; slept := slept_so_far |}
      | ConnectionFailure _ =>
          connect_loop server delay remaining' (S attempt)
            (slept_so_far + delay)
      | OtherException msg =>
          {| result := Propagated msg;
             attempts := S attempt; slept := slept_so_far |}
      end
  end.

(** Attempt [j] ends in one of the two exceptions that are retried. *)
Definition failing (server : nat -> Attempt) (j : nat) : Prop :=
  exists msg, server j = ConnectionFailure msg.

Definition _connect_with_retry (server : nat -> Attempt)
    (retries delay : nat) : ConnectTrace :=
  connect_loop server delay retries 0 0.

End Connection.

(** ** db_connector.py: the products collection *)

Module MongoStore.
Import Forecaster DBConnector.

(** A document of the [products] collection, with the fields the service
    reads and the two it writes. *)
Record Document : Type := {
  doc_id : N;
  doc_name : option string;
  doc_quantity : option Q;
  doc_history : option (list RawObservation);
  ai_forecast : option PredictionData;
  last_analyzed : option Z
}.

(** The [$match] stage of lines 62-66: [history] exists and is not an
    array of size 0. *)
Definition match_stage (d : Document) : bool :=
  match doc_history d with
  | Some (_ :: _) => true
  | Some [] | None => false
  end.

(** The [$project] stage of lines 67-75, on the fields the service uses. *)
Definition project_stage (d : Document) : Product :=
  {| _id := doc_id d; name := doc_name d;
     quantity := doc_quantity d; history := doc_history d |}.

(** [self.db.products.aggregate(pipeline)] on a reachable server holding
    [docs]; the server refuses a [$limit] that is not positive. *)
Definition collection_aggregate (docs : list Document) (limit : nat)
    : Exc.t (list Product) :=
  match limit with
  | O => Exc.Raise "the limit must be positive"
  | S _ => Exc.Ret (firstn limit (map project_stage (filter match_stage docs)))
  end.

(** One [UpdateOne({"_id": ...}, {"$set": {...}})] of lines 97-103. *)
Record UpdateOne : Type := {
  filter_id : N;
  set_ai_forecast : PredictionData;
  set_last_analyzed : Z
}.

(** Lines 94-104: one operation per update, in order; [clock k] is the
    value of the [k]-th call of [datetime.utcnow()]. *)
Fixpoint operations (clock : nat -> Z) (k : nat) (updates : list Update)
    : list UpdateOne :=
  match updates with
  | [] => []
  | item :: rest =>
      {| filter_id := upd_id item;
         set_ai_forecast := prediction item;
         set_last_analyzed := clock k |}
      :: operations clock (S k) rest
  end.

(** What [bulk_write] left in the collection and the exception it raised,
    if any. *)
Record WriteOutcome : Type := {
  after : list Document;
  raised : option string
}.

Section Writer.

Variable bulk_write : list UpdateOne -> list Document -> WriteOutcome.
Variable clock : nat -> Z.

(** Lines 86-112; both [except] clauses only log. *)
Definition bulk_update_predictions (updates : list Update)
    (docs : list Document) : list Document :=
  match updates with
  | [] => docs
  | _ :: _ => after (bulk_write (operations clock 0 updates) docs)
  end.

End Writer.

(** [$set] of the two fields on one document. *)
Definition with_forecast (d : Document) (pr : PredictionData) (t : Z)
    : Document :=
  {| doc_id := doc_id d; doc_name := doc_name d;
     doc_quantity := doc_quantity d; doc_history := doc_history d;
     ai_forecast := Some pr;
     last_analyzed := Some t |}.

(** An [UpdateOne] without upsert: the first document with the given
    [_id] gets the two fields set; nothing happens when there is none. *)
Fixpoint apply_update_one (op : UpdateOne) (docs : list Document)
    : list Document :=
  match docs with
  | [] => []
  | d :: rest =>
      if (doc_id d =? filter_id op)%N then
        with_forecast d (set_ai_forecast op) (set_last_analyzed op) :: rest
      else d :: apply_update_one op rest
  end.

(** The document a reader finds under an [_id]. *)
Definition find_doc (id : N) (docs : list Document) : option Document :=
  find (fun d => (doc_id d =? id)%N) docs.

(** A bulk write without write error: every operation is applied, in
    order, and nothing is raised. *)
Definition mongo_bulk_write (ops : list UpdateOne) (docs : list Document)
    : WriteOutcome :=
  {| after := fold_left (fun ds op => apply_update_one op ds) ops docs;
     raised := None |}.

End MongoStore.

(** ** The service on a collection *)

Module Deployment.
Import Forecaster DBConnector App MongoStore.

(** The documents a batch run works on: the first 2000 whose history is
    a non-empty list. *)
Definition eligible (docs : list Document) : list Document :=
  firstn 2000 (filter match_stage docs).

Section Run.

Variable prophet : list (Z * Q) -> Exc.t (list ForecastRow).
Variable clock : nat -> Z.

(** One request of [/predict/batch] against a collection: the answer and
    the collection after the bulk write of line 65. *)
Definition serve (docs : list Document) : Outcome * list Document :=
  let outcome := run_batch_prediction prophet (collection_aggregate docs) in
  (outcome,
   fold_left (fun ds updates =>
                bulk_update_predictions mongo_bulk_write clock updates ds)
     (bulk_calls outcome) docs).

End Run.

End Deployment.

(** ** More sample data *)

Module StoreSamples.
Import Forecaster DBConnector App MongoStore Connection Samples.

Definition doc_of (p : Product) : Document :=
  {| doc_id := _id p; doc_name := name p; doc_quantity := quantity p;
     doc_history := history p; ai_forecast := None; last_analyzed := None |}.

(** The three sample products and a fourth document without history. *)
Definition sample_docs : list Document :=
  [ doc_of product_A; doc_of product_B;
    {| doc_id := 9%N; doc_name := None; doc_quantity := Some 1%Q;
       doc_history := Some []; ai_forecast := None; last_analyzed := None |};
    doc_of product_C ].

(** A server that answers on the third attempt. *)
Definition third_time (attempt : nat) : Attempt :=
  match attempt with
  | 0%nat | 1%nat => ConnectionFailure "timeout"
  | _ => Connected
  end.

Definition always_down (attempt : nat) : Attempt :=
  ConnectionFailure "timeout".

(** A prediction, and updates for a document that does not exist and for
    product C. *)
Definition sample_prediction : PredictionData :=
  analyze 40 (flat_forecast 110 3 30).
Definition sample_updates : list Update :=
  [ {| upd_id := 77%N; prediction := sample_prediction |};
    {| upd_id := 3%N; prediction := sample_prediction |} ].

End StoreSamples.
(** ** float64 arithmetic as Python, numpy and pandas use it

    The quantities of the analysis are IEEE 754 binary64 numbers; they are
    the primitive floats of the kernel, so that every operation below
    rounds as the program's does. *)

From Stdlib Require Floats Uint63.

Module Float64.
Import PrimFloat FloatOps SpecFloat.

#[local] Set Warnings "-inexact-float".
Local Open Scope float_scope.

(** The literals of forecaster.py. *)
Definition f1_1 : float := 1.1.
Definition f0_9 : float := 0.9.
Definition f0_2 : float := 0.2.

(** [float(n)] for a count [n]. *)
Definition of_nat (n : nat) : float :=
  of_uint63 (Uint63.of_Z (Z.of_nat n)).

(** Python's [max(0, y)]: the second argument when it is greater than
    the first, otherwise the first. *)
Definition max0 (y : float) : float := if 0 <? y then y else 0.

(** [Series.clip(lower=0)] on one value: a NaN and a value [>= 0] are
    kept, any other value becomes 0. *)
Definition clip_lower0 (y : float) : float :=
  if is_nan y then y else if 0 <=? y then y else 0.

(** numpy's pairwise summation of a contiguous float64 array
    ([pairwise_sum] of the add loop): a plain loop below 8 elements;
    up to 128 elements eight running sums over the blocks of 8, added
    up as a tree, then the remaining elements one by one; above, the two
    halves. *)
Definition seq_sum (from : float) (l : list float) : float :=
  fold_left add l from.

Definition add8 (r block : list float) : list float :=
  map (fun p => fst p + snd p) (combine r block).

Fixpoint accumulate8 (r rest : list float) : list float * list float :=
  match rest with
  | a0 :: a1 :: a2 :: a3 :: a4 :: a5 :: a6 :: a7 :: rest' =>
      accumulate8 (add8 r [a0; a1; a2; a3; a4; a5; a6; a7]) rest'
  | _ => (r, rest)
  end.

Definition block_sum (l : list float) : float :=
  let (r, rest) := accumulate8 (firstn 8 l) (skipn 8 l) in
  match r with
  | [r0; r1; r2; r3; r4; r5; r6; r7] =>
      seq_sum (((r0 + r1) + (r2 + r3)) + ((r4 + r5) + (r6 + r7))) rest
  | _ => seq_sum 0 l
  end.

Fixpoint pairwise_sum (fuel : nat) (l : list float) : float :=
  let n := length l in
  if (n <? 8)%nat then seq_sum 0 l
  else if (n <=? 128)%nat then block_sum l
  else
    match fuel with
    | O => block_sum l
    | S fuel' =>
        let n2 := (n / 2)%nat in
        let n2 := (n2 - n2 mod 8)%nat in
        pairwise_sum fuel' (firstn n2 l) + pairwise_sum fuel' (skipn n2 l)
    end.

(** [ndarray.sum()]: the reduction starts from the identity 0.  (Only
    the sign of a sum that is zero depends on that start, and no result
    of the service depends on the sign of a zero.) *)
Definition numpy_sum (l : list float) : float :=
  0 + pairwise_sum (length l) l.

(** [Series.sum()] (pandas' [nansum]): NaN counts for 0. *)
Definition nansum (l : list float) : float :=
  numpy_sum (map (fun x => if is_nan x then 0 else x) l).

(** [Series.mean()] (pandas' [nanmean]): the sum over the values that
    are not NaN, divided by their number; NaN when there is none. *)
Definition nanmean (l : list float) : float :=
  nansum l /
  of_nat (length (filter (fun x => negb (is_nan x)) l)).

(** Python's [int(x)]: the integer part of a finite float; NaN and the
    infinities raise. *)
Definition int_of_float (x : float) : Exc.t Z :=
  match Prim2SF x with
  | S754_nan => Exc.Raise "cannot convert float NaN to integer"
  | S754_infinity _ => Exc.Raise "cannot convert float infinity to integer"
  | S754_zero _ => Exc.Ret 0%Z
  | S754_finite s m e =>
      let magnitude :=
        match e with
        | Zneg p => Z.shiftr (Zpos m) (Zpos p)
        | _ => Z.shiftl (Zpos m) e
        end in
      Exc.Ret (if s then - magnitude else magnitude)%Z
  end.

(** The rational a float stands for, when it is finite. *)
Definition value (x : float) : option Q :=
  match Prim2SF x with
  | S754_zero _ => Some 0%Q
  | S754_finite s m e =>
      let magnitude :=
        match e with
        | Zneg p => (Zpos m # Pos.pow 2 p)%Q
        | _ => inject_Z (Z.shiftl (Zpos m) e)
        end in
      Some (if s then - magnitude else magnitude)%Q
  | _ => None
  end.

(** The last step of a rounding: the mantissa is brought back to 53
    digits when the rounding took it to 54. *)
Definition finalize (m e : Z) : spec_float :=
  let '(mrs, e') := shr_fexp prec emax m e loc_Exact in
  match shr_m mrs with
  | Z0 => S754_zero false
  | Zpos p => if (e' <=? emax - prec)%Z then S754_finite false p e'
              else S754_infinity false
  | Zneg _ => S754_nan
  end.

End Float64.

(** ** forecaster.py on float64: the frame

    [_preprocess_data] once more, with what pandas contributes taken as
    it is: how a column of dates is read ([pd.to_datetime] looks at the
    whole column, infers a format, and may raise), how a column of
    quantities is read ([pd.to_numeric]), how the values of a group are
    added up (the column is int64 or float64, and the sum is the one of
    the library), and whether the remaining columns of the rows can be
    summed at all. *)

Module Frame.

Record Library : Type := {
  DateCell : Type;
  QtyCell : Type;
  Other : Type;
  (** the values of the numeric column ['y'] *)
  num : Type;
  zero : num;
  (** [pd.to_datetime(column)]: raises, or tells how each cell of this
      column reads, NaT being [None] *)
  to_datetime : list (option DateCell) -> Exc.t (option DateCell -> option Z);
  (** [pd.to_numeric(column, errors='coerce')]: NaN is [None] *)
  to_numeric : list (option QtyCell) -> Exc.t (option QtyCell -> option num);
  (** the sum of one group of [groupby(...).sum()] and of one bin of
      [resample(...).sum()] *)
  group_sum : list num -> num;
  (** whether [groupby(...).sum()] and [resample(...).sum()] go through
      on the other columns of these rows (they raise on a column they
      cannot add up) *)
  others_summable : list (Z * Other) -> bool
}.

Section Normalizer.

Context (L : Library).

(** A row of the history: a dict.  The keys that [col_map] renames to
    ['ds'] are ['date'] and ['createdAt'], those it renames to ['y'] are
    ['sales'] and ['quantity_sold']; a row may also use ['ds'] and ['y']
    themselves.  A cell is [None] when the dict has no such key. *)
Record RawObservation : Type := {
  date : option (DateCell L);
  createdAt : option (DateCell L);
  key_ds : option (DateCell L);
  sales : option (QtyCell L);
  quantity_sold : option (QtyCell L);
  key_y : option (QtyCell L);
  others : Other L
}.

(** The frame has a column for a key when some row has the key. *)
Definition has_column {A} (cell : RawObservation -> option A)
    (history : list RawObservation) : bool :=
  existsb (fun r => match cell r with Some _ => true | None => false end)
    history.

(** [df[name]] after the renaming: KeyError without such a column; with
    several columns of that name the result is a frame, on which
    [pd.to_datetime] and [pd.to_numeric] raise. *)
Definition select_column {A} (name : string)
    (aliases : list (RawObservation -> option A))
    (history : list RawObservation) : Exc.t (RawObservation -> option A) :=
  match filter (fun cell => has_column cell history) aliases with
  | [] => Exc.Raise name
  | [cell] => Exc.Ret cell
  | _ :: _ :: _ => Exc.Raise name
  end.

(** [.fillna(0)]. *)
Definition fillna0 (v : option (num L)) : num L :=
  match v with
  | Some q => q
  | None => zero L
  end.

(** [df.dropna(subset=['ds', 'y'])]: ['y'] holds no NaN any more. *)
Fixpoint dropna (rows : list (option Z * num L * Other L))
    : list (Z * num L * Other L) :=
  match rows with
  | [] => []
  | (Some t, q, o) :: rest => (t, q, o) :: dropna rest
  | (None, _, _) :: rest => dropna rest
  end.

(** The groups of [df.groupby('ds')]: one per distinct timestamp, in
    ascending order, each with its values in row order. *)
Fixpoint group_insert (t : Z) (q : num L) (g : list (Z * list (num L)))
    : list (Z * list (num L)) :=
  match g with
  | [] => [(t, [q])]
  | (t', qs) :: g' =>
      if t <? t' then (t, [q]) :: g
      else if t =? t' then (t', qs ++ [q]) :: g'
      else (t', qs) :: group_insert t q g'
  end.

Definition groups (rows : list (Z * num L)) : list (Z * list (num L)) :=
  fold_left (fun g r => group_insert (fst r) (snd r) g) rows [].

(** [df.groupby('ds').sum()]. *)
Definition groupby_sum (rows : list (Z * num L)) : list (Z * num L) :=
  map (fun g => (fst g, group_sum L (snd g))) (groups rows).

Definition min_stamp (t0 : Z) (g : list (Z * num L)) : Z :=
  fold_left (fun m r => Z.min m (fst r)) g t0.
Definition max_stamp (t0 : Z) (g : list (Z * num L)) : Z :=
  fold_left (fun m r => Z.max m (fst r)) g t0.

(** [df.resample('D').sum().fillna(0)]: one bin per calendar day from
    the day of the smallest index to the day of the largest, holding the
    sum of the rows of that day. *)
Definition resample_D (g : list (Z * num L)) : list (Z * num L) :=
  match g with
  | [] => []
  | (t0, _) :: _ =>
      let lo := Forecaster.day_of (min_stamp t0 g) in
      let hi := Forecaster.day_of (max_stamp t0 g) in
      map (fun d =>
             (d, group_sum L
                   (map snd
                      (filter (fun r => Forecaster.day_of (fst r) =? d) g))))
        (Forecaster.zrange lo (Z.to_nat (hi - lo + 1)))
  end.

(** Lines 24-43. *)
Definition daily_frame (history : list RawObservation)
    : Exc.t (list (Z * num L)) :=
  ds_col <- select_column "ds" [date; createdAt; key_ds] history ;;
  parse <- to_datetime L (map ds_col history) ;;
  y_col <- select_column "y" [sales; quantity_sold; key_y] history ;;
  coerce <- to_numeric L (map y_col history) ;;
  let df := map (fun r => (parse (ds_col r), fillna0 (coerce (y_col r)),
                           others r)) history in
  let df := dropna df in
  if others_summable L (map (fun r => (fst (fst r), snd r)) df) then
    Exc.Ret (resample_D (groupby_sum (map fst df)))
  else Exc.Raise "unsupported operand type(s) for +".

Definition _preprocess_data (history : list RawObservation)
    : option (list (Z * num L)) :=
  Exc.try_except
    (df <- daily_frame history ;;
     Exc.Ret (if (length df <? 10)%nat then None else Some df))
    (fun _ => None).

End Normalizer.

End Frame.

(** What the design document says of a normalised series, in terms of
    the cells of the history. *)

Module FrameDesign.
Import Frame.

Section Notions.

Context (L : Library).
Variable ds_col : RawObservation L -> option (DateCell L).
Variable y_col : RawObservation L -> option (QtyCell L).
Variable parse : option (DateCell L) -> option Z.
Variable coerce : option (QtyCell L) -> option (num L).

(** The timestamps of the rows that carry a date. *)
Definition observed (history : list (RawObservation L)) : list Z :=
  flat_map (fun r => match parse (ds_col r) with
                     | Some t => [t]
                     | None => []
                     end) history.

Definition observed_days (history : list (RawObservation L)) : list Z :=
  map Forecaster.day_of (observed history).




End Notions.

Section Rows.

Context (L : Library).




End Rows.

End FrameDesign.

(** ** forecaster.py on float64: the analysis

    [generate_forecast] with its quantities as the program has them:
    the columns of the forecast frame are float64, [current_qty] is
    whatever the product document holds, the [try] of lines 62-118
    covers the model and the analysis alike, and the model draws from
    the random generator of the process. *)

Module Analyzer.
Import PrimFloat Float64.
Import Num(head, tail).
Import Forecaster(Trend(..), Confidence(..)).

Local Open Scope float_scope.

Record ForecastRow : Type := {
  ds : Z;                (* the day of the forecast point *)
  yhat : float;
  yhat_lower : float;
  yhat_upper : float
}.

Record PredictionData : Type := {
  stock_out_date : option Z;
  predicted_monthly_demand : Z;
  trend : Trend;
  confidence : Confidence;
  forecast_data : list ForecastRow
}.

Inductive Prediction : Type :=
| InsufficientData                       (* {"status": "insufficient_data"} *)
| ModelError (message : string)          (* {"status": "error", ...} *)
| Success (p : PredictionData).          (* {"status": "success", ...} *)

(** The ['quantity'] of a product document: a number (an int is taken
    with its float value), or something else (null, text, an array, a
    document), on which the arithmetic of lines 84 and 105 raises a
    TypeError. *)
Inductive Quantity : Type :=
| QtyNumber (q : float)
| QtyOther.

(** Line 76: [future_data['yhat'].clip(lower=0).sum()]. *)
Definition predicted_demand (future_data : list ForecastRow) : float :=
  nansum (map clip_lower0 (map yhat future_data)).

(** Lines 82-88: the depletion loop, with its [break]. *)
Fixpoint depletion_loop (running_stock : float) (rows : list ForecastRow)
    : option Z :=
  match rows with
  | [] => None
  | row :: rest =>
      let daily_sales := max0 (yhat row) in
      let running_stock := running_stock - daily_sales in
      if running_stock <=? 0 then Some (ds row)
      else depletion_loop running_stock rest
  end.

(** Lines 92-100. *)
Definition start_sales (future_data : list ForecastRow) : float :=
  nanmean (map yhat (head 5 future_data)).
Definition end_sales (future_data : list ForecastRow) : float :=
  nanmean (map yhat (tail 5 future_data)).

Definition classify_trend (start_sales end_sales : float) : Trend :=
  if start_sales * f1_1 <? end_sales then Uptrend
  else if end_sales <? start_sales * f0_9 then Downtrend
  else Stable.

(** Lines 104-105. *)
Definition avg_spread (future_data : list ForecastRow) : float :=
  nanmean (map (fun row => yhat_upper row - yhat_lower row) future_data).

Definition confidence_score (current_qty : float)
    (future_data : list ForecastRow) : Confidence :=
  if avg_spread future_data <? current_qty * f0_2 then High else Low.

(** Lines 73-114: the analysis of the prediction window.  [int()]
    raises on a demand that is NaN or infinite. *)
Definition analyze (current_qty : Quantity) (future_data : list ForecastRow)
    : Exc.t PredictionData :=
  match current_qty with
  | QtyOther => Exc.Raise "unsupported operand type(s)"
  | QtyNumber q =>
      demand <- int_of_float (predicted_demand future_data) ;;
      Exc.Ret {| stock_out_date := depletion_loop q future_data;
                 predicted_monthly_demand := demand;
                 trend := classify_trend (start_sales future_data)
                            (end_sales future_data);
                 confidence := confidence_score q future_data;
                 forecast_data := tail 30 future_data |}
  end.

(** [m.make_future_dataframe(periods)]: the dates of the history the
    model was fitted on, followed by the [periods] days after the last
    of them (the series is in ascending order). *)
Definition make_future_dataframe (history_dates : list Z) (periods : nat)
    : list Z :=
  history_dates
  ++ Forecaster.zrange (last history_dates 0%Z + 1)%Z periods.

Section Engine.

Context (L : Frame.Library).

(** The external forecasting model: [Prophet(...).fit(df)] gives a
    fitted model or raises, [m.predict(future)] gives the forecast frame
    or raises.  Both may draw from the random generator of the process,
    whose state is passed along. *)
Variables Model Rng : Type.
Variable fit : list (Z * Frame.num L) -> Rng -> Exc.t Model * Rng.
Variable predict : Model -> list Z -> Rng -> Exc.t (list ForecastRow) * Rng.

(** Lines 64-69. *)
Definition forecast_of (df : list (Z * Frame.num L)) (g : Rng)
    : Exc.t (list ForecastRow) * Rng :=
  match fit df g with
  | (Exc.Ret m, g) => predict m (make_future_dataframe (map fst df) 30) g
  | (Exc.Raise e, g) => (Exc.Raise e, g)
  end.

Definition generate_forecast (current_qty : Quantity)
    (history : list (Frame.RawObservation L)) (g : Rng)
    : Prediction * Rng :=
  match Frame._preprocess_data L history with
  | None => (InsufficientData, g)
  | Some df =>
      let (forecast, g) := forecast_of df g in
      (Exc.try_except
         (forecast <- forecast ;;
          let future_data := tail 30 forecast in
          p <- analyze current_qty future_data ;;
          Exc.Ret (Success p))
         (fun e => ModelError e),
       g)
  end.

End Engine.

End Analyzer.

(** ** app.py over the float64 analysis

    The product loop of [run_batch_prediction], with the state of the
    random generator going from one product to the next. *)

Module Orchestrator.
Import Analyzer.
Import Forecaster(Trend(..), Confidence(..)).
Import App(Stats, Build_Stats, uptrend, downtrend, critical, bump, is_uptrend,
           is_downtrend, truthy_date).

(** A product document as projected by the aggregation pipeline. *)
Record Product (L : Frame.Library) : Type := {
  _id : N;
  name : option string;
  quantity : option Quantity;
  history : option (list (Frame.RawObservation L))
}.
Arguments _id {L} p.
Arguments name {L} p.
Arguments quantity {L} p.
Arguments history {L} p.

Record Update : Type := {
  upd_id : N;
  prediction : PredictionData
}.

Section Service.

Context (L : Frame.Library).
Variables Model Rng : Type.
Variable fit : list (Z * Frame.num L) -> Rng -> Exc.t Model * Rng.
Variable predict : Model -> list Z -> Rng -> Exc.t (list ForecastRow) * Rng.

(** Lines 43-49: the prediction computed for one product. *)
Definition predict_product (p : Product L) (g : Rng) : Prediction * Rng :=
  let current_qty :=
    match quantity p with Some q => q | None => QtyNumber PrimFloat.zero end in
  let history := match history p with Some h => h | None => [] end in
  generate_forecast L Model Rng fit predict current_qty history g.

(** Lines 43-61: one iteration of [for p in products]. *)
Definition loop_body (acc : list Update * Stats * Rng) (p : Product L)
    : list Update * Stats * Rng :=
  let '(updates, stats, g) := acc in
  let pid := _id p in
  match predict_product p g with
  | (Success pr, g) =>
      (updates ++ [ {| upd_id := pid; prediction := pr |} ],
       {| uptrend := bump (is_uptrend (trend pr)) (uptrend stats);
          downtrend := bump (is_downtrend (trend pr)) (downtrend stats);
          critical := bump (truthy_date (stock_out_date pr))
                        (critical stats) |},
       g)
  | (InsufficientData, g) | (ModelError _, g) => (updates, stats, g)
  end.

(** Lines 38-61. *)
Definition product_loop (products : list (Product L)) (g : Rng)
    : list Update * Stats * Rng :=
  fold_left loop_body products
    ([], {| uptrend := 0; downtrend := 0; critical := 0 |}, g).

End Service.

End Orchestrator.

(** What the design document says of the analysis, on float64. *)

Module AnalyzerDesign.
Import PrimFloat Float64 Analyzer.

#[local] Set Warnings "-inexact-float".
Local Open Scope float_scope.

(** The running stock after the first [k] forecast days: the current
    quantity, less the estimate of each of these days in turn when the
    estimate is positive and less nothing when it is not. *)
Definition running_stock (current_qty : float) (future : list ForecastRow)
    (k : nat) : float :=
  fold_left
    (fun stock row => stock - (if 0 <? yhat row then yhat row else 0))
    (firstn k future) current_qty.

(** Day [k] (counted from 0) is the first at whose end the running
    stock is at most zero. *)
Definition first_depleted (current_qty : float) (future : list ForecastRow)
    (k : nat) : Prop :=
  (running_stock current_qty future (S k) <=? 0) = true /\
  forall j, (j < k)%nat ->
    (running_stock current_qty future (S j) <=? 0) = false.

(** The demand counted for a day: its estimate when that is at least
    zero, and zero otherwise (a negative estimate, no estimate). *)
Definition counted_demand (estimate : float) : float :=
  if 0 <=? estimate then estimate else 0.

(** [max(0, v)] on exact numbers. *)
Definition clamp (v : Q) : Q := if Qle_bool 0 v then v else 0%Q.

(** The integer part of [v]: [v] truncated toward zero. *)
Definition truncate (v : Q) : Z := Z.quot (Qnum v) (Zpos (Qden v)).

(** The two tests of the trend classification: [end > start * 1.1] and
    [end < start * 0.9]. *)
Definition above_band (start_sales end_sales : float) : bool :=
  start_sales * 1.1 <? end_sales.
Definition below_band (start_sales end_sales : float) : bool :=
  end_sales <? start_sales * 0.9.

End AnalyzerDesign.

(** Sample forecasts and a sample model for the float64 analysis. *)

Module AnalyzerSamples.
Import PrimFloat Float64 Analyzer.

#[local] Set Warnings "-inexact-float".
Local Open Scope float_scope.

(** [n] forecast rows from day [d0] on, all with point estimate [y] and
    an interval of half-width [w] around it. *)
Definition level_forecast (d0 : Z) (y w : float) (n : nat)
    : list ForecastRow :=
  map (fun d => {| ds := d; yhat := y;
                   yhat_lower := y - w; yhat_upper := y + w |})
    (Forecaster.zrange d0 n).

(** Thirty days at 0.1 a day, from day 1 on. *)
Definition tenths : list ForecastRow := level_forecast 1 0.1 0.5 30.

(** Ten days at 0.1 a day, then twenty days without demand. *)
Definition tenths_then_nothing : list ForecastRow :=
  level_forecast 1 0.1 0.5 10 ++ level_forecast 11 0 0.5 20.

(** Thirty days whose interval is from 0 to 1.8. *)
Definition wide_interval : list ForecastRow :=
  map (fun d => {| ds := d; yhat := 1; yhat_lower := 0; yhat_upper := 1.8 |})
    (Forecaster.zrange 1 30).

(** Thirty days at 0.9 a day. *)
Definition nine_tenths : list ForecastRow := level_forecast 1 0.9 0.5 30.

(** Thirty days whose only demand is 2.7 on the first. *)
Definition fractional_forecast : list ForecastRow :=
  {| ds := 1; yhat := 2.7; yhat_lower := 2; yhat_upper := 3 |}
  :: level_forecast 2 0 0.5 29.

(** Thirty days at -10 a day. *)
Definition flat_negative : list ForecastRow := level_forecast 1 (-10) 1 30.

(** The sum of the estimates of [fractional_forecast], as an exact
    number, and the prediction for it with 5 units in stock. *)
Definition fractional_total : Q :=
  Eval vm_compute in
    match value (predicted_demand fractional_forecast) with
    | Some v => v
    | None => 0%Q
    end.

(** Thirty days falling from 20.6 to 18.54. *)
Definition falling : list ForecastRow :=
  level_forecast 1 20.6 1 5 ++ level_forecast 6 19.5 1 20
  ++ level_forecast 26 18.54 1 5.

(** A stock of five units, and the predictions of the analysis for it. *)
Definition five_units : Quantity := QtyNumber 5.

Definition no_prediction : PredictionData :=
  {| stock_out_date := None; predicted_monthly_demand := 0;
     trend := Forecaster.Stable; confidence := Forecaster.Low;
     forecast_data := [] |}.

Definition prediction_for (future : list ForecastRow) : PredictionData :=
  match analyze five_units future with
  | Exc.Ret p => p
  | Exc.Raise _ => no_prediction
  end.

Definition nine_tenths_prediction : PredictionData :=
  Eval vm_compute in prediction_for nine_tenths.
Definition fractional_prediction : PredictionData :=
  Eval vm_compute in prediction_for fractional_forecast.
Definition flat_negative_prediction : PredictionData :=
  Eval vm_compute in prediction_for flat_negative.
Definition falling_prediction : PredictionData :=
  Eval vm_compute in prediction_for falling.

End AnalyzerSamples.

(** A sample of what pandas contributes: dates that are timestamps, null
    or text that is no date, quantities that are float64 numbers or text
    that is no number, sums taken from left to right, and no other
    column. *)

Module FrameSamples.
Import PrimFloat Float64 Frame.

#[local] Set Warnings "-inexact-float".

Inductive SampleDate : Type :=
| Stamp (t : Z)
| NullDate
| NoDate (text : string).

Inductive SampleQty : Type :=
| Qty (q : float)
| NoNumber (text : string).

Definition is_no_date (c : option SampleDate) : bool :=
  match c with Some (NoDate _) => true | _ => false end.

Definition sample_to_datetime (column : list (option SampleDate))
    : Exc.t (option SampleDate -> option Z) :=
  if existsb is_no_date column then Exc.Raise "Unknown datetime string format"
  else Exc.Ret (fun c => match c with Some (Stamp t) => Some t | _ => None end).

Definition sample_to_numeric (column : list (option SampleQty))
    : Exc.t (option SampleQty -> option float) :=
  Exc.Ret (fun c => match c with
                    | Some (Qty q) => if is_nan q then None else Some q
                    | _ => None
                    end).

Definition floats : Library :=
  {| DateCell := SampleDate;
     QtyCell := SampleQty;
     Other := unit;
     num := float;
     zero := 0%float;
     to_datetime := sample_to_datetime;
     to_numeric := sample_to_numeric;
     group_sum := seq_sum 0%float;
     others_summable := fun _ => true |}.

(** A sale recorded under the keys ['date'] and ['sales']. *)
Definition sale (t : Z) (q : float) : RawObservation floats :=
  Build_RawObservation floats
    (Some (Stamp t)) None None        (* date, createdAt, ds *)
    (Some (Qty q)) None None          (* sales, quantity_sold, y *)
    tt.

(** Ten consecutive days, with sales of 0.1 in the morning and of 0.2 at
    noon of each. *)
Definition ten_days : list (RawObservation floats) :=
  flat_map (fun d => [sale (d * 86400 + 30000) 0.1%float;
                      sale (d * 86400 + 43200) 0.2%float])
    (Forecaster.zrange 100 10).

Definition ten_days_series : list (Z * float) :=
  Eval vm_compute in
    match _preprocess_data floats ten_days with
    | Some series => series
    | None => []
    end.

(** Sales on two days only. *)
Definition two_days : list (RawObservation floats) :=
  [sale 0 1%float; sale 86400 2%float].

End FrameSamples.

(** A stand-in for the model.  Fitting raises on a series without any
    sale; the forecast has one row per requested date, at the level of
    the last observation, with an interval whose width depends on the
    state of the random generator, and each forecast advances that
    state. *)

Module EngineSamples.
Import PrimFloat Float64 Analyzer Orchestrator FrameSamples.

#[local] Set Warnings "-inexact-float".
Local Open Scope float_scope.

Definition toy_fit (df : list (Z * float)) (g : Z)
    : Exc.t (list (Z * float)) * Z :=
  if existsb (fun r => 0 <? snd r) df then (Exc.Ret df, g)
  else (Exc.Raise "fit failed", g).

Definition half_width (g : Z) : float := if Z.even g then 0.5 else 5.

Definition toy_predict (m : list (Z * float)) (dates : list Z) (g : Z)
    : Exc.t (list ForecastRow) * Z :=
  let level := snd (last m (0%Z, 0)) in
  (Exc.Ret (map (fun d => {| ds := d; yhat := level;
                             yhat_lower := level - half_width g;
                             yhat_upper := level + half_width g |}) dates),
   (g + 1)%Z).

(** The prediction for [FrameSamples.ten_days] with ten units in stock,
    from the generator state 0. *)
Definition ten_units : Quantity := QtyNumber 10.


(** Two products with the same stock and the same history. *)
Definition product_1 : Product floats :=
  {| _id := 1%N; name := Some "first"%string; quantity := Some ten_units;
     history := Some ten_days |}.
Definition product_2 : Product floats :=
  {| _id := 2%N; name := Some "second"%string; quantity := Some ten_units;
     history := Some ten_days |}.

Definition updates_of (products : list (Product floats)) (g : Z)
    : list Update :=
  fst (fst (product_loop floats _ _ toy_fit toy_predict products g)).

End EngineSamples.

(** What an update holds apart from the uncertainty interval of its
    forecast and the confidence label drawn from it. *)

Module OrchestratorDesign.
Import Analyzer Orchestrator.
Import Forecaster(Trend(..)).
Import App(Stats, Build_Stats, is_uptrend, is_downtrend, truthy_date).

Definition point (row : ForecastRow) : Z * PrimFloat.float :=
  (ds row, yhat row).

Record Settled : Type := {
  its_id : N;
  its_stock_out_date : option Z;
  its_demand : Z;
  its_trend : Trend;
  its_points : list (Z * PrimFloat.float)
}.

Definition settled_prediction (id : N) (p : PredictionData) : Settled :=
  {| its_id := id;
     its_stock_out_date := stock_out_date p;
     its_demand := predicted_monthly_demand p;
     its_trend := trend p;
     its_points := map point (forecast_data p) |}.

Definition settled (u : Update) : Settled :=
  settled_prediction (upd_id u) (prediction u).

(** The update a prediction leads to, if any. *)
Definition settled_outcome (id : N) (pr : Prediction) : list Settled :=
  match pr with
  | Success p => [settled_prediction id p]
  | InsufficientData | ModelError _ => []
  end.

(** The statistics of a list of updates. *)
Definition tally (l : list Settled) : Stats :=
  {| App.uptrend := Design.count (fun s => is_uptrend (its_trend s)) l;
     App.downtrend := Design.count (fun s => is_downtrend (its_trend s)) l;
     App.critical :=
       Design.count (fun s => truthy_date (its_stock_out_date s)) l |}.

(** What a call of the model settles whatever the random generator
    gives: whether it raises, the fitted model, the dates and the point
    estimates of the forecast. *)
Definition fitted {Model} (r : Exc.t Model) : option Model :=
  match r with
  | Exc.Ret m => Some m
  | Exc.Raise _ => None
  end.

Definition points_of (r : Exc.t (list ForecastRow))
    : option (list (Z * PrimFloat.float)) :=
  match r with
  | Exc.Ret out => Some (map point out)
  | Exc.Raise _ => None
  end.

Definition summary (r : Exc.t PredictionData) (id : N) : list Settled :=
  match r with
  | Exc.Ret p => [settled_prediction id p]
  | Exc.Raise _ => []
  end.

Section Contribution.

Context (L : Frame.Library).
Variables Model Rng : Type.
Variable fit : list (Z * Frame.num L) -> Rng -> Exc.t Model * Rng.
Variable predict : Model -> list Z -> Rng -> Exc.t (list ForecastRow) * Rng.

(** What product [p] contributes to the updates. *)
Definition contribution (g0 : Rng) (p : Product L) : list Settled :=
  settled_outcome (_id p)
    (fst (predict_product L Model Rng fit predict p g0)).

End Contribution.

End OrchestratorDesign.

(** * Properties *)

Import Num Forecaster DBConnector App Design Samples.

(** ** Facts about the numeric helpers *)

Section NumFacts.

Lemma Qleb_le x y : Qleb x y = true <-> (x <= y)%Q.
Proof. apply Qle_bool_iff. Qed.

Lemma Qltb_lt x y : Qltb x y = true <-> (x < y)%Q.
Proof.
  unfold Qltb. rewrite negb_true_iff.
  destruct (Qle_bool y x) eqn:E.
  - apply Qle_bool_iff in E. split; [discriminate|].
    intros H. exfalso. apply (Qlt_not_le _ _ H E).
  - split; [intros _|reflexivity].
    apply Qnot_le_lt. intros H. apply Qle_bool_iff in H. congruence.
Qed.

Lemma Qleb_false x y : Qleb x y = false <-> (y < x)%Q.
Proof.
  rewrite <- Qltb_lt. unfold Qltb, Qleb.
  destruct (Qle_bool x y); simpl; intuition congruence.
Qed.

Lemma Qltb_false x y : Qltb x y = false <-> (y <= x)%Q.
Proof.
  rewrite <- Qleb_le. unfold Qltb, Qleb.
  destruct (Qle_bool y x); simpl; intuition congruence.
Qed.

Lemma max0_nonneg y : (0 <= max0 y)%Q.
Proof.
  unfold max0. destruct (Qltb 0 y) eqn:E.
  - apply Qltb_lt in E. lra.
  - lra.
Qed.

Lemma max0_zero y : (y == 0)%Q -> (max0 y == 0)%Q.
Proof.
  intros H. unfold max0. destruct (Qltb 0 y); [exact H|reflexivity].
Qed.

Lemma fold_Qplus_acc l : forall a, (fold_left Qplus l a == a + qsum l)%Q.
Proof.
  unfold qsum. induction l as [|x l IH]; intros a; simpl.
  - lra.
  - rewrite (IH (a + x)%Q), (IH (0 + x)%Q). lra.
Qed.

Lemma qsum_nil : qsum [] = 0%Q.
Proof. reflexivity. Qed.

Lemma qsum_cons x l : (qsum (x :: l) == x + qsum l)%Q.
Proof. unfold qsum at 1. simpl. rewrite fold_Qplus_acc. lra. Qed.

Lemma qsum_nonneg l : Forall (fun x => 0 <= x)%Q l -> (0 <= qsum l)%Q.
Proof.
  induction 1 as [|x l Hx _ IH].
  - rewrite qsum_nil. lra.
  - rewrite qsum_cons. lra.
Qed.

Lemma qsum_zero l : Forall (fun x => x == 0)%Q l -> (qsum l == 0)%Q.
Proof.
  induction 1 as [|x l Hx _ IH].
  - rewrite qsum_nil. reflexivity.
  - rewrite qsum_cons, Hx, IH. lra.
Qed.

Lemma tail_length {A} (n : nat) (l : list A) :
  length (tail n l) = Nat.min n (length l).
Proof. unfold tail. rewrite length_skipn. lia. Qed.


Lemma tail_all {A} (n : nat) (l : list A) :
  (length l <= n)%nat -> tail n l = l.
Proof.
  intros H. unfold tail. replace (length l - n)%nat with 0%nat by lia.
  reflexivity.
Qed.

End NumFacts.

(** ** The depletion simulation (lines 79-88) *)

Section Depletion.

Lemma stock_after_0 q rows : (stock_after q rows 0 == q)%Q.
Proof. unfold stock_after. simpl. rewrite qsum_nil. ring. Qed.

Lemma stock_after_shift q r rows k :
  (stock_after q (r :: rows) (S k)
   == stock_after (q - max0 (yhat r)) rows k)%Q.
Proof. unfold stock_after. simpl. rewrite qsum_cons. ring. Qed.

Lemma stock_after_1 q r rows :
  (stock_after q (r :: rows) 1 == q - max0 (yhat r))%Q.
Proof. rewrite stock_after_shift. apply stock_after_0. Qed.

Lemma depletion_loop_Some rows : forall q d,
  depletion_loop q rows = Some d <->
  exists k row, nth_error rows k = Some row /\ ds row = d /\
                first_depleted q rows k.
Proof.
  induction rows as [|r rows IH]; intros q d; simpl.
  - split; [discriminate|]. intros (k & row & Hk & _). destruct k; discriminate.
  - destruct (Qleb (q - max0 (yhat r)) 0) eqn:E.
    + apply Qleb_le in E. split.
      * intros [= <-]. exists 0%nat, r. repeat split.
        -- rewrite stock_after_1. exact E.
        -- intros j Hj. lia.
      * intros (k & row & Hk & Hd & Hle & Hbefore). destruct k as [|k].
        -- simpl in Hk. injection Hk as ->. now subst.
        -- exfalso. assert (H0 : (0 < S k)%nat) by lia.
           apply Hbefore in H0. rewrite stock_after_1 in H0. lra.
    + apply Qleb_false in E. rewrite IH. split.
      * intros (k & row & Hk & Hd & Hle & Hbefore).
        exists (S k), row. repeat split; trivial.
        -- rewrite stock_after_shift. exact Hle.
        -- intros [|j] Hj.
           ++ rewrite stock_after_1. exact E.
           ++ rewrite stock_after_shift. apply Hbefore. lia.
      * intros (k & row & Hk & Hd & Hle & Hbefore). destruct k as [|k].
        -- exfalso. rewrite stock_after_1 in Hle. lra.
        -- exists k, row. simpl in Hk. repeat split; trivial.
           ++ rewrite <- stock_after_shift. exact Hle.
           ++ intros j Hj. rewrite <- stock_after_shift. apply Hbefore. lia.
Qed.

Lemma depletion_loop_None rows : forall q,
  depletion_loop q rows = None <->
  forall k, (k < length rows)%nat -> (0 < stock_after q rows (S k))%Q.
Proof.
  induction rows as [|r rows IH]; intros q; simpl.
  - split; [intros _ k Hk; lia|reflexivity].
  - destruct (Qleb (q - max0 (yhat r)) 0) eqn:E.
    + apply Qleb_le in E. split; [discriminate|].
      intros H. exfalso. assert (H0 : (0 < S (length rows))%nat) by lia.
      apply H in H0. rewrite stock_after_1 in H0. lra.
    + apply Qleb_false in E. rewrite IH. split.
      * intros H [|k] Hk.
        -- rewrite stock_after_1. exact E.
        -- rewrite stock_after_shift. apply H. lia.
      * intros H k Hk. rewrite <- stock_after_shift. apply H. lia.
Qed.

End Depletion.

(** ** Monthly demand (lines 76 and 110) *)

Section Demand.

Lemma clip_lower0_max0 y : (clip_lower0 y == max0 y)%Q.
Proof.
  unfold clip_lower0, max0.
  destruct (Qltb y 0) eqn:E1; destruct (Qltb 0 y) eqn:E2;
    try apply Qltb_lt in E1; try apply Qltb_lt in E2;
    try apply Qltb_false in E1; try apply Qltb_false in E2; lra.
Qed.

Lemma qsum_map_ext {A} (f g : A -> Q) (l : list A) :
  (forall x, f x == g x)%Q -> (qsum (map f l) == qsum (map g l))%Q.
Proof.
  intros H. induction l as [|x l IH]; simpl.
  - reflexivity.
  - rewrite !qsum_cons, IH, (H x). reflexivity.
Qed.

Lemma predicted_demand_clamped (future : list ForecastRow) :
  (predicted_demand future
   == qsum (map (fun row => max0 (yhat row)) future))%Q.
Proof.
  unfold predicted_demand. rewrite map_map.
  apply qsum_map_ext. intros row. apply clip_lower0_max0.
Qed.

Lemma predicted_demand_nonneg (future : list ForecastRow) :
  (0 <= predicted_demand future)%Q.
Proof.
  rewrite predicted_demand_clamped. apply qsum_nonneg.
  apply Forall_forall. intros x Hx. apply in_map_iff in Hx.
  destruct Hx as (row & <- & _). apply max0_nonneg.
Qed.

Lemma int_trunc_floor q : (0 <= q)%Q -> int_trunc q = Qfloor q.
Proof.
  destruct q as [n d]. unfold Qle, int_trunc, Qfloor. simpl.
  intros H. apply Z.quot_div_nonneg; lia.
Qed.

Lemma monthly_demand_floor (current_qty : Q) (future : list ForecastRow) :
  predicted_monthly_demand (analyze current_qty future)
  = Qfloor (qsum (map (fun row => max0 (yhat row)) future)).
Proof.
  simpl. rewrite int_trunc_floor by apply predicted_demand_nonneg.
  apply Qfloor_comp. apply predicted_demand_clamped.
Qed.

End Demand.

(** ** A forecast of zero demand *)

Section ZeroForecast.

Lemma depletion_loop_zero rows : Forall zero_estimate rows ->
  forall q, (0 < q)%Q -> depletion_loop q rows = None.
Proof.
  induction 1 as [|r rows Hr _ IH]; intros q Hq; simpl.
  - reflexivity.
  - pose proof (max0_zero _ Hr) as Hz.
    assert (E : Qleb (q - max0 (yhat r)) 0 = false).
    { apply Qleb_false. lra. }
    rewrite E. apply IH. lra.
Qed.

Lemma depletion_loop_no_stock r rows q :
  (q <= 0)%Q -> depletion_loop q (r :: rows) = Some (ds r).
Proof.
  intros Hq. simpl.
  assert (E : Qleb (q - max0 (yhat r)) 0 = true).
  { apply Qleb_le. pose proof (max0_nonneg (yhat r)). lra. }
  now rewrite E.
Qed.

(** The case of C5 that fails: with no stock at all, thirty days of zero
    demand still report the first forecast day as the stock-out date. *)
Lemma zero_forecast_no_stock :
  ~ (forall (current_qty : Q) (future : list ForecastRow),
       length future = 30%nat -> Forall zero_estimate future ->
       stock_out_date (analyze current_qty future) = None /\
       predicted_monthly_demand (analyze current_qty future) = 0).
Proof.
  intros H.
  destruct (H 0%Q (flat_forecast 1 0 30)) as [Hnone _].
  - reflexivity.
  - unfold zero_estimate. repeat constructor.
  - discriminate Hnone.
Qed.

(** C5, amended.  When every daily point estimate is 0 the predicted
    monthly demand is 0, and [stock_out_date] is null provided the current
    stock is positive; a product whose stock is already zero or less is
    reported out of stock on the first forecast day. *)
Theorem zero_forecast (current_qty : Q) (future : list ForecastRow) :
  Forall zero_estimate future ->
  predicted_monthly_demand (analyze current_qty future) = 0 /\
  ((0 < current_qty)%Q ->
     stock_out_date (analyze current_qty future) = None) /\
  ((current_qty <= 0)%Q ->
     stock_out_date (analyze current_qty future)
     = option_map ds (hd_error future)).
Proof.
  intros Hz. repeat split.
  - rewrite monthly_demand_floor.
    assert (E : (qsum (map (fun row => max0 (yhat row)) future) == 0)%Q).
    { apply qsum_zero. apply Forall_forall. intros x Hx.
      apply in_map_iff in Hx. destruct Hx as (row & <- & Hin).
      apply max0_zero. rewrite Forall_forall in Hz. now apply Hz. }
    rewrite (Qfloor_comp _ _ E). reflexivity.
  - intros Hq. now apply depletion_loop_zero.
  - intros Hq. destruct future as [|r rows]; [reflexivity|].
    now apply depletion_loop_no_stock.
Qed.

Lemma zero_forecast_witness :
  predicted_monthly_demand (analyze 25 (flat_forecast 1 0 30)) = 0 /\
  stock_out_date (analyze 25 (flat_forecast 1 0 30)) = None.
Proof.
  assert (Hz : Forall zero_estimate (flat_forecast 1 0 30)).
  { unfold zero_estimate. repeat constructor. }
  destruct (zero_forecast 25 (flat_forecast 1 0 30) Hz) as (Hd & Hpos & _).
  split; [exact Hd|]. apply Hpos. reflexivity.
Defined.

End ZeroForecast.

(** ** Trend classification (lines 92-100) *)

Section TrendBand.



(** The examples of the design document. *)
Example trend_examples :
  classify_trend (Some 10%Q) (Some 12%Q) = Uptrend /\
  classify_trend (Some 10%Q) (Some (95 # 10)) = Stable /\
  classify_trend (Some 10%Q) (Some 8%Q) = Downtrend.
Proof. repeat split. Qed.

End TrendBand.

(** ** Normalisation of a history (lines 24-49) *)

Section Resampling.







Lemma preprocess_None history :
  _preprocess_data history = None <->
  (exists msg, daily_frame history = Exc.Raise msg) \/
  (exists df, daily_frame history = Exc.Ret df /\ (length df < 10)%nat).
Proof.
  unfold _preprocess_data.
  destruct (daily_frame history) as [df|msg]; simpl.
  - destruct (length df <? 10)%nat eqn:E.
    + apply Nat.ltb_lt in E. split; [|reflexivity].
      intros _. right. now exists df.
    + apply Nat.ltb_ge in E. split; [discriminate|].
      intros [[m H]|[df' [[= ->] H]]]; [discriminate|lia].
  - split; [|reflexivity]. intros _. left. now exists msg.
Qed.

End Resampling.

(** ** Rows that cannot be parsed (lines 32-36) *)

Section InvalidRows.

Lemma to_datetime_unparseable history :
  (exists r, In r history /\ raw_ds r = Some DsUnparseable) ->
  exists msg, to_datetime (map raw_ds history) = Exc.Raise msg.
Proof.
  induction history as [|r0 history IH]; intros (r & Hin & Hr).
  - destruct Hin.
  - simpl. destruct Hin as [->|Hin].
    + rewrite Hr. eauto.
    + destruct (IH (ex_intro _ r (conj Hin Hr))) as [msg E].
      rewrite E. destruct (raw_ds r0) as [[| |t]|]; simpl; eauto.
Qed.

(** One date that cannot be parsed makes [pd.to_datetime] raise, and the
    whole history is rejected. *)
Lemma unparseable_date_rejects history :
  (exists r, In r history /\ raw_ds r = Some DsUnparseable) ->
  _preprocess_data history = None.
Proof.
  intros H. apply preprocess_None. left.
  destruct (to_datetime_unparseable _ H) as [msg E].
  unfold daily_frame, column.
  destruct (has_column raw_ds history); simpl; [|eauto].
  rewrite E. simpl. eauto.
Qed.

(** A row with a malformed or absent quantity keeps its date: the day is
    observed whatever the quantity cell holds. *)
Lemma malformed_quantity_keeps_date history r t :
  In r history -> raw_ds r = Some (DsTime t) ->
  In (day_of t) (observed_days history) /\
  In (t, to_numeric_coerce_fillna0 (raw_y r)) (dated_rows history).
Proof.
  intros Hin Hr.
  assert (H : In (t, to_numeric_coerce_fillna0 (raw_y r))
                (dated_rows history)).
  { unfold dated_rows. apply in_flat_map. exists r. split; [exact Hin|].
    rewrite Hr. now left. }
  split; [|exact H].
  unfold observed_days. apply in_map_iff.
  now exists (t, to_numeric_coerce_fillna0 (raw_y r)).
Qed.

(** A row whose date is null is left out, the others are kept. *)
Lemma null_date_dropped history r :
  raw_ds r = Some DsNull \/ raw_ds r = None ->
  dated_rows (r :: history) = dated_rows history.
Proof. intros [H|H]; unfold dated_rows; simpl; now rewrite H. Qed.

(** C8 at a history of ten valid days followed by one row whose date
    cannot be parsed: the ten days alone are normalised, with the
    additional row the whole history is rejected instead of the row being
    dropped. *)
Theorem unparseable_date_rejects_history :
  (exists series, _preprocess_data ten_days = Some series) /\
  _preprocess_data (ten_days ++ [bad_date_row]) = None.
Proof.
  split.
  - eexists. vm_compute. reflexivity.
  - vm_compute. reflexivity.
Qed.

End InvalidRows.

(** ** The tail of a tail *)

Section Adapter.

Lemma tail_tail {A} (n : nat) (l : list A) : tail n (tail n l) = tail n l.
Proof. apply tail_all. rewrite tail_length. lia. Qed.

End Adapter.

(** ** The batch loop (app.py, lines 34-73) *)

Section BatchLoop.

Variable prophet : list (Z * Q) -> Exc.t (list ForecastRow).

Lemma count_cons {A} (f : A -> bool) x l :
  count f (x :: l) = ((if f x then 1 else 0) + count f l)%nat.
Proof. unfold count. simpl. now destruct (f x). Qed.

Lemma successes_cons p products :
  successes prophet (p :: products)
  = match predict prophet p with
    | Success pr => [ {| upd_id := _id p; prediction := pr |} ]
    | _ => []
    end ++ successes prophet products.
Proof. reflexivity. Qed.

Lemma successes_count products :
  length (successes prophet products) = count (is_success prophet) products.
Proof.
  induction products as [|p products IH].
  - reflexivity.
  - rewrite successes_cons, length_app, count_cons, IH.
    unfold is_success. now destruct (predict prophet p).
Qed.

Lemma bump_count (f : Update -> bool) u b n l :
  f u = b -> (bump b n + count f l = n + count f (u :: l))%nat.
Proof. intros <-. rewrite count_cons. unfold bump. destruct (f u); lia. Qed.

(** The loop from any intermediate state: the successful predictions are
    appended in order and the counters advance by their statistics. *)
Lemma fold_loop_body products : forall updates stats,
  fold_left (loop_body prophet) products (updates, stats)
  = (updates ++ successes prophet products,
     let s := stats_of (successes prophet products) in
     {| uptrend := uptrend stats + uptrend s;
        downtrend := downtrend stats + downtrend s;
        critical := critical stats + critical s |}).
Proof.
  induction products as [|p products IH]; intros updates stats.
  - simpl. rewrite app_nil_r. destruct stats. simpl.
    now rewrite !Nat.add_0_r.
  - rewrite successes_cons. simpl fold_left.
    destruct (predict prophet p) as [| msg | pr]; try apply IH.
    rewrite IH. cbn [app]. rewrite <- app_assoc. cbn [app].
    f_equal. cbn [uptrend downtrend critical stats_of].
    f_equal; apply bump_count; unfold has_trend, has_stock_out; cbn;
      now destruct pr as [[d|] n [| |] c fd].
Qed.

Lemma product_loop_successes products :
  product_loop prophet products
  = (successes prophet products, stats_of (successes prophet products)).
Proof.
  unfold product_loop. rewrite fold_loop_body. reflexivity.
Qed.

End BatchLoop.

Section BatchReport.

Variable prophet : list (Z * Q) -> Exc.t (list ForecastRow).

Lemma in_successes products u :
  In u (successes prophet products) <->
  exists p, In p products /\ upd_id u = _id p /\
            predict prophet p = Success (prediction u).
Proof.
  unfold successes. rewrite in_flat_map. split.
  - intros (p & Hp & Hu). exists p. split; [exact Hp|].
    destruct (predict prophet p) as [| msg | pr]; try contradiction.
    destruct Hu as [<-|[]]. now split.
  - intros (p & Hp & Hid & Hpr). exists p. split; [exact Hp|].
    rewrite Hpr. left. destruct u. simpl in *. now subst.
Qed.

Lemma report_eq products :
  report prophet products
  = {| body := Report (length products)
                 (length (successes prophet products))
                 (stats_of (successes prophet products));
       status_code := 200;
       bulk_calls := match successes prophet products with
                     | [] => []
                     | _ :: _ => [successes prophet products]
                     end |}.
Proof. unfold report. now rewrite product_loop_successes. Qed.

(** C2.  The update list of a batch holds exactly the products whose
    prediction succeeded, a rejected or failed product leaving the list
    and the counters as they were; the report, answered with status 200,
    has [processed] equal to the number of fetched products, [updated]
    equal to the number of successful ones, and counters computed from
    the successful predictions alone, [critical] counting those with a
    stock-out date.  Every non-empty fetched batch is answered with this
    report. *)
Theorem batch_partial_success (products : list Product) :
  let updates := fst (product_loop prophet products) in
  let stats := snd (product_loop prophet products) in
  (forall u, In u updates <->
     exists p, In p products /\ upd_id u = _id p /\
               predict prophet p = Success (prediction u)) /\
  length updates = count (is_success prophet) products /\
  uptrend stats = count (has_trend Uptrend) updates /\
  downtrend stats = count (has_trend Downtrend) updates /\
  critical stats = count has_stock_out updates /\
  body (report prophet products)
  = Report (length products) (count (is_success prophet) products) stats /\
  status_code (report prophet products) = 200 /\
  run_batch_prediction prophet (fun _ => Exc.Ret products)
  = match products with
    | [] => {| body := NoData "No products with sufficient history found.";
               status_code := 200;
               bulk_calls := [] |}
    | _ :: _ => report prophet products
    end.
Proof.
  cbv zeta. rewrite report_eq, product_loop_successes. cbn [fst snd].
  split; [intros u; apply in_successes|].
  split; [apply successes_count|].
  repeat (split; [reflexivity|]).
  split; [cbn [body]; now rewrite successes_count|].
  split; [reflexivity|].
  unfold run_batch_prediction, fetch_training_batch. simpl.
  destruct products; [reflexivity|]. now rewrite report_eq.
Qed.

(** The batch of the design document: A has too little data, the model
    fails on B, C succeeds. *)
Example batch_three_products :
  predict toy_prophet product_A = InsufficientData /\
  predict toy_prophet product_B = ModelError "fit failed" /\
  body (run_batch_prediction toy_prophet good_store)
  = Report 3 1 {| uptrend := 0; downtrend := 0; critical := 1 |}.
Proof. repeat split; vm_compute; reflexivity. Qed.

(** C10.  When the store raises on the batch query, the fetch answers the
    empty list, and the batch run answers the "no data" message with
    status 200 without writing anything. *)
Theorem fetch_failure_is_no_data
    (aggregate : nat -> Exc.t (list Product)) :
  (forall limit msg, aggregate limit = Exc.Raise msg ->
     fetch_training_batch aggregate limit = []) /\
  (forall msg, aggregate 2000%nat = Exc.Raise msg ->
     run_batch_prediction prophet aggregate
     = {| body := NoData "No products with sufficient history found.";
          status_code := 200;
          bulk_calls := [] |}).
Proof.
  split.
  - intros limit msg H. unfold fetch_training_batch. now rewrite H.
  - intros msg H. unfold run_batch_prediction, fetch_training_batch.
    now rewrite H.
Qed.

End BatchReport.

Lemma fetch_failure_is_no_data_witness :
  fetch_training_batch broken_store 2000 = [] /\
  status_code (run_batch_prediction toy_prophet broken_store) = 200.
Proof.
  destruct (fetch_failure_is_no_data toy_prophet broken_store) as [Hf Hr].
  split.
  - apply (Hf 2000%nat "ServerSelectionTimeoutError"%string). reflexivity.
  - rewrite (Hr "ServerSelectionTimeoutError"%string); reflexivity.
Defined.

(** ** Further properties of the analysis (forecaster.py, lines 75-114) *)

Section AnalysisFacts.

Lemma stock_after_more_stock q q' rows k :
  (q <= q')%Q -> (stock_after q rows k <= stock_after q' rows k)%Q.
Proof. unfold stock_after. intros H. lra. Qed.

(** X2.  A product with less stock runs out no later: when the simulation
    reports a stock-out for some stock, it reports one for any smaller
    stock, at the same forecast row or an earlier one. *)
Theorem stock_out_monotone (q q' : Q) (future : list ForecastRow) (d' : Z) :
  (q <= q')%Q ->
  stock_out_date (analyze q' future) = Some d' ->
  exists d k k' row row',
    stock_out_date (analyze q future) = Some d /\
    nth_error future k = Some row /\ ds row = d /\
    nth_error future k' = Some row' /\ ds row' = d' /\
    (k <= k')%nat.
Proof.
  intros Hq H'.
  change (depletion_loop q' future = Some d') in H'.
  apply depletion_loop_Some in H'.
  destruct H' as (k' & row' & Hk' & Hd' & Hle' & _).
  assert (Hle : (stock_after q future (S k') <= 0)%Q).
  { pose proof (stock_after_more_stock q q' future (S k') Hq). lra. }
  assert (Hlen : (k' < length future)%nat).
  { apply nth_error_Some. congruence. }
  change (stock_out_date (analyze q future)) with (depletion_loop q future).
  destruct (depletion_loop q future) as [d|] eqn:E.
  - apply depletion_loop_Some in E.
    destruct E as (k & row & Hk & Hd & _ & Hbefore).
    exists d, k, k', row, row'. repeat split; trivial.
    apply Nat.nlt_ge. intros Hlt. apply Hbefore in Hlt. lra.
  - exfalso. rewrite depletion_loop_None in E. apply E in Hlen. lra.
Qed.

Lemma stock_out_monotone_witness :
  exists d, stock_out_date (analyze 10 (flat_forecast 1 3 30)) = Some d.
Proof.
  destruct (stock_out_monotone 10 40 (flat_forecast 1 3 30) 14)
    as (d & _ & _ & _ & _ & H & _).
  - discriminate.
  - reflexivity.
  - now exists d.
Defined.

Lemma max0_nonpos y : (y <= 0)%Q -> max0 y = 0%Q.
Proof.
  intros H. unfold max0. apply Qltb_false in H. now rewrite H.
Qed.

(** X3.  The reported monthly demand is never negative, and days with a
    negative or zero estimate contribute nothing to it. *)
Theorem monthly_demand_nonnegative (current_qty : Q)
    (future : list ForecastRow) :
  0 <= predicted_monthly_demand (analyze current_qty future) /\
  (Forall (fun row => yhat row <= 0)%Q future ->
   predicted_monthly_demand (analyze current_qty future) = 0).
Proof.
  rewrite monthly_demand_floor. split.
  - change 0 with (Qfloor 0). apply Qfloor_resp_le.
    apply qsum_nonneg. apply Forall_forall. intros x Hx.
    apply in_map_iff in Hx. destruct Hx as (row & <- & _).
    apply max0_nonneg.
  - intros H.
    assert (E : (qsum (map (fun row => max0 (yhat row)) future) == 0)%Q).
    { apply qsum_zero. apply Forall_forall. intros x Hx.
      apply in_map_iff in Hx. destruct Hx as (row & <- & Hin).
      rewrite Forall_forall in H. rewrite (max0_nonpos _ (H row Hin)).
      reflexivity. }
    rewrite (Qfloor_comp _ _ E). reflexivity.
Qed.

Lemma monthly_demand_nonnegative_witness :
  predicted_monthly_demand (analyze 7 (flat_forecast 1 (-4 # 1) 30)) = 0.
Proof.
  apply (proj2 (monthly_demand_nonnegative 7 (flat_forecast 1 (-4 # 1) 30))).
  repeat constructor; discriminate.
Defined.

End AnalysisFacts.

(** ** Confidence and trend (forecaster.py, lines 92-105) *)

Section ConfidenceTrend.

Lemma mean_cons x l :
  mean (x :: l)
  = Some (qsum (x :: l) / inject_Z (Z.of_nat (length (x :: l))))%Q.
Proof. reflexivity. Qed.

Lemma inject_length_pos {A} (x : A) (l : list A) :
  (0 < inject_Z (Z.of_nat (length (x :: l))))%Q.
Proof.
  change 0%Q with (inject_Z 0). rewrite <- Zlt_Qlt. simpl length. lia.
Qed.

Lemma Qdiv_lt_iff a c n : (0 < n)%Q -> (a / n < c <-> a < c * n)%Q.
Proof.
  intros Hn.
  assert (E : (a == a / n * n)%Q) by (field; lra).
  rewrite E at 2. symmetry. apply Qmult_lt_r. exact Hn.
Qed.

(** X5.  Without stock the confidence is never high, as long as no upper bound
    lies below its lower bound. *)
Theorem confidence_low_without_stock (current_qty : Q)
    (future : list ForecastRow) :
  (current_qty <= 0)%Q ->
  Forall (fun row => yhat_lower row <= yhat_upper row)%Q future ->
  confidence (analyze current_qty future) = Low.
Proof.
  intros Hq Hb.
  change (confidence (analyze current_qty future))
    with (confidence_score current_qty future).
  unfold confidence_score, avg_spread.
  destruct future as [|r rows]; [reflexivity|].
  cbn [map]. rewrite mean_cons. cbn [nan_ltb].
  assert (Hs : (0 <= qsum (map (fun row => yhat_upper row - yhat_lower row)
                             (r :: rows)))%Q).
  { apply qsum_nonneg. apply Forall_forall. intros x Hx.
    apply in_map_iff in Hx. destruct Hx as (row & <- & Hin).
    rewrite Forall_forall in Hb. specialize (Hb row Hin). lra. }
  cbn [map] in Hs.
  pose proof (inject_length_pos (yhat_upper r - yhat_lower r)%Q
                (map (fun row => yhat_upper row - yhat_lower row)%Q rows))
    as Hn.
  set (a := qsum _) in *. set (n := inject_Z _) in *.
  destruct (Qltb (a / n) (current_qty * (2 # 10))) eqn:E; [|reflexivity].
  exfalso. apply Qltb_lt in E. apply (Qdiv_lt_iff _ _ _ Hn) in E.
  assert (Hp : (0 <= - (current_qty * (2 # 10)) * n)%Q).
  { apply Qmult_le_0_compat; lra. }
  lra.
Qed.

Lemma confidence_low_without_stock_witness :
  confidence (analyze 0 (flat_forecast 1 3 30)) = Low.
Proof.
  apply (confidence_low_without_stock 0 (flat_forecast 1 3 30)).
  - discriminate.
  - repeat constructor; discriminate.
Defined.

(** The examples of the design document: a stock of 100 with an average
    spread of 15 is rated high, with an average spread of 25 low. *)
Example confidence_examples :
  nan_ltb (Some 15%Q) (Some (100 * (2 # 10))%Q) = true /\
  nan_ltb (Some 25%Q) (Some (100 * (2 # 10))%Q) = false.
Proof. split; reflexivity. Qed.






End ConfidenceTrend.

(** ** Further properties of the normalisation (forecaster.py, lines
    19-52) *)

Section NormalizationFacts.

(** An empty history is rejected. *)
Example preprocess_empty : _preprocess_data [] = None.
Proof. reflexivity. Qed.

End NormalizationFacts.

(** ** The connection (db_connector.py, lines 27-52) *)

Import Connection MongoStore Deployment StoreSamples.

Section DatabaseName.

Local Open Scope string_scope.

Lemma split_on_nonempty sep s : split_on sep s <> [].
Proof.
  destruct s as [|c s]; simpl; [discriminate|].
  destruct (Ascii.eqb c sep); [discriminate|].
  destruct (split_on sep s); discriminate.
Qed.

Lemma split_on_segments sep s :
  Forall (fun seg => mentions sep seg = false) (split_on sep s).
Proof.
  induction s as [|c s IH]; simpl.
  - repeat constructor.
  - destruct (Ascii.eqb c sep) eqn:E.
    + constructor; [reflexivity|exact IH].
    + destruct (split_on sep s) as [|seg segs].
      * constructor; [simpl; now rewrite E|constructor].
      * inversion IH as [|? ? Hseg Hsegs]; subst.
        constructor; [simpl; now rewrite E, Hseg|exact Hsegs].
Qed.

Lemma split_on_no_sep sep s :
  mentions sep s = false -> split_on sep s = [s].
Proof.
  induction s as [|c s IH]; simpl; [reflexivity|].
  intros H. apply orb_false_iff in H. destruct H as [Hc Hs].
  rewrite Hc, (IH Hs). reflexivity.
Qed.

Lemma split_on_app sep base rest :
  exists pre, pre <> [] /\
    split_on sep (base ++ String sep rest) = (pre ++ split_on sep rest)%list.
Proof.
  induction base as [|c base (pre & Hpre & IH)]; simpl.
  - rewrite Ascii.eqb_refl. exists [EmptyString]. split; [discriminate|].
    reflexivity.
  - rewrite IH. destruct (Ascii.eqb c sep).
    + exists (EmptyString :: pre). split; [discriminate|reflexivity].
    + destruct pre as [|p0 pre]; [congruence|]. simpl.
      exists (String c p0 :: pre). split; [discriminate|reflexivity].
Qed.

Lemma last_app_nonempty {A} (l1 l2 : list A) d :
  l2 <> [] -> last (l1 ++ l2)%list d = last l2 d.
Proof.
  intros H. induction l1 as [|x l1 IH]; [reflexivity|].
  simpl. destruct (l1 ++ l2)%list eqn:E; [|exact IH].
  apply app_eq_nil in E. destruct E. congruence.
Qed.

Lemma last_in {A} (l : list A) d : l <> [] -> In (last l d) l.
Proof.
  induction l as [|x l IH]; [congruence|]. intros _.
  destruct l as [|y l]; [now left|].
  right. apply IH. discriminate.
Qed.

(** X11.  The database name is never empty and never contains a slash: it is
    the part of the URI after its last slash, or ["smart_inventory"] when
    that part is empty. *)
Theorem db_name_wellformed (uri : string) :
  db_name uri <> "" /\ mentions "/" (db_name uri) = false /\
  (db_name uri = last (split_on "/" uri) "" \/
   (last (split_on "/" uri) "" = "" /\ db_name uri = "smart_inventory")).
Proof.
  unfold db_name.
  pose proof (last_in (split_on "/" uri) "" (split_on_nonempty _ _)) as Hin.
  pose proof (split_on_segments "/" uri) as Hall.
  rewrite Forall_forall in Hall. apply Hall in Hin.
  destruct (last (split_on "/" uri) "") as [|c seg] eqn:E.
  - repeat split; [discriminate|right; now split].
  - repeat split; [discriminate|exact Hin|now left].
Qed.

(** X12.  The name written after the last slash of the URI is the database
    name; a URI that ends with a slash selects ["smart_inventory"], as
    does the default URI. *)
Theorem db_name_of_uri (base name : string) :
  mentions "/" name = false ->
  (name <> "" -> db_name (base ++ String "/" name) = name) /\
  (name = "" -> db_name (base ++ String "/" name) = "smart_inventory") /\
  db_name (uri_of None) = "smart_inventory".
Proof.
  intros Hname.
  assert (E : last (split_on "/" (base ++ String "/" name)) "" = name).
  { destruct (split_on_app "/" base name) as (pre & _ & ->).
    rewrite last_app_nonempty by apply split_on_nonempty.
    now rewrite (split_on_no_sep _ _ Hname). }
  unfold db_name at 1 2. rewrite E. repeat split.
  - intros Hne. destruct name; [congruence|reflexivity].
  - intros ->. reflexivity.
Qed.

Lemma db_name_of_uri_witness :
  db_name "mongodb://db.internal:27017/warehouse" = "warehouse".
Proof.
  apply (proj1 (db_name_of_uri "mongodb://db.internal:27017" "warehouse"
                  eq_refl)).
  discriminate.
Defined.

End DatabaseName.

Section Retry.

Variable server : nat -> Attempt.
Variable delay : nat.

(** [n] failed attempts in a row cost [n] iterations and [n] sleeps. *)
Lemma connect_loop_failures n : forall remaining start slept_so_far,
  (forall j, (j < n)%nat -> failing server (start + j)) ->
  (n <= remaining)%nat ->
  connect_loop server delay remaining start slept_so_far
  = connect_loop server delay (remaining - n) (start + n)
      (slept_so_far + n * delay).
Proof.
  induction n as [|n IH]; intros remaining start slept_so_far Hfail Hle.
  - rewrite Nat.sub_0_r, !Nat.add_0_r. reflexivity.
  - destruct remaining as [|remaining]; [lia|]. simpl connect_loop at 1.
    destruct (Hfail 0%nat ltac:(lia)) as [msg E].
    rewrite Nat.add_0_r in E. rewrite E.
    rewrite IH.
    + f_equal; simpl; lia.
    + intros j Hj. replace (S start + j)%nat with (start + S j)%nat by lia.
      apply Hfail. lia.
    + lia.
Qed.

(** X13.  A server that answers at attempt [k], after [k] retried failures and
    within the allowed number of attempts, is connected to at that
    attempt, after [k] sleeps. *)
Theorem connect_succeeds (retries k : nat) :
  (k < retries)%nat ->
  (forall j, (j < k)%nat -> failing server j) ->
  server k = Connected ->
  _connect_with_retry server retries delay
  = {| result := Established k; attempts := S k; slept := k * delay |}.
Proof.
  intros Hk Hfail Hok. unfold _connect_with_retry.
  rewrite (connect_loop_failures k) by (trivial; lia). simpl.
  destruct (retries - k)%nat eqn:E; [lia|]. simpl. now rewrite Hok.
Qed.

(** X14.  When every allowed attempt fails, [DatabaseConnectionError] is raised
    after [retries] attempts and as many sleeps, the last one included. *)
Theorem connect_exhausted (retries : nat) :
  (forall j, (j < retries)%nat -> failing server j) ->
  _connect_with_retry server retries delay
  = {| result := DatabaseConnectionError;
       attempts := retries; slept := retries * delay |}.
Proof.
  intros Hfail. unfold _connect_with_retry.
  rewrite (connect_loop_failures retries) by (trivial; lia).
  rewrite Nat.sub_diag. reflexivity.
Qed.

(** X15.  An exception other than the two connection failures is not retried:
    it leaves the loop at once. *)
Theorem connect_propagates (retries k : nat) (msg : string) :
  (k < retries)%nat ->
  (forall j, (j < k)%nat -> failing server j) ->
  server k = OtherException msg ->
  _connect_with_retry server retries delay
  = {| result := Propagated msg; attempts := S k; slept := k * delay |}.
Proof.
  intros Hk Hfail Hother. unfold _connect_with_retry.
  rewrite (connect_loop_failures k) by (trivial; lia). simpl.
  destruct (retries - k)%nat eqn:E; [lia|]. simpl. now rewrite Hother.
Qed.

Lemma connect_loop_sound : forall remaining start slept_so_far,
  let t := connect_loop server delay remaining start slept_so_far in
  (attempts t <= start + remaining)%nat /\
  match result t with
  | Established k =>
      server k = Connected /\ attempts t = S k /\ (start <= k)%nat /\
      slept t = (slept_so_far + (k - start) * delay)%nat
  | DatabaseConnectionError =>
      attempts t = (start + remaining)%nat /\
      slept t = (slept_so_far + remaining * delay)%nat /\
      forall j, (start <= j < start + remaining)%nat -> failing server j
  | Propagated msg =>
      exists k, server k = OtherException msg /\ attempts t = S k /\
                (start <= k)%nat /\
                slept t = (slept_so_far + (k - start) * delay)%nat
  end.
Proof.
  induction remaining as [|remaining IH]; intros start slept_so_far; simpl.
  - repeat split; try lia; intros j Hj; lia.
  - destruct (server start) as [|msg|msg] eqn:E; simpl.
    + repeat split; trivial; try lia.
    + specialize (IH (S start) (slept_so_far + delay)%nat).
      simpl in IH. destruct IH as [Hle Hres]. split; [lia|].
      destruct (result _) as [k| |m].
      * destruct Hres as (H1 & H2 & H3 & H4). repeat split; trivial; try lia.
        rewrite H4. replace (k - start)%nat with (S (k - S start)) by lia.
        simpl. lia.
      * destruct Hres as (H1 & H2 & H3). repeat split; try lia.
        intros j Hj. destruct (Nat.eq_dec j start) as [->|Hne].
        -- now exists msg.
        -- apply H3. lia.
      * destruct Hres as (k & H1 & H2 & H3 & H4). exists k.
        repeat split; trivial; try lia.
        rewrite H4. replace (k - start)%nat with (S (k - S start)) by lia.
        simpl. lia.
    + split; [lia|]. exists start. repeat split; trivial; try lia.
Qed.

(** X16.  Whatever the server does, at most [retries] attempts are made and at
    most [retries] sleeps taken; a connection is reported only for an
    attempt that succeeded, and [DatabaseConnectionError] only after all
    [retries] attempts failed. *)
Theorem connect_bounded (retries : nat) :
  let t := _connect_with_retry server retries delay in
  (attempts t <= retries)%nat /\ (slept t <= retries * delay)%nat /\
  match result t with
  | Established k =>
      server k = Connected /\ (k < retries)%nat /\
      attempts t = S k /\ slept t = (k * delay)%nat
  | DatabaseConnectionError =>
      attempts t = retries /\ slept t = (retries * delay)%nat /\
      forall j, (j < retries)%nat -> failing server j
  | Propagated msg =>
      exists k, server k = OtherException msg /\ (k < retries)%nat /\
                attempts t = S k /\ slept t = (k * delay)%nat
  end.
Proof.
  unfold _connect_with_retry.
  pose proof (connect_loop_sound retries 0 0) as H. cbv zeta in H |- *.
  destruct H as [Hle Hres]. simpl in Hle.
  destruct (result _) as [k| |m].
  - destruct Hres as (H1 & H2 & _ & H4). rewrite Nat.sub_0_r in H4.
    simpl in H4. repeat split; trivial; try lia.
    rewrite H4. apply Nat.mul_le_mono_r. lia.
  - destruct Hres as (H1 & H2 & H3). simpl in H1, H2.
    repeat split; trivial; try lia. intros j Hj. apply H3. lia.
  - destruct Hres as (k & H1 & H2 & _ & H4). rewrite Nat.sub_0_r in H4.
    simpl in H4. split; [lia|]. split.
    + rewrite H4. apply Nat.mul_le_mono_r. lia.
    + exists k. repeat split; trivial; lia.
Qed.

End Retry.

Lemma connect_succeeds_witness :
  _connect_with_retry third_time 3 2
  = {| result := Established 2; attempts := 3; slept := 4 |}.
Proof.
  apply (connect_succeeds third_time 2 3 2).
  - lia.
  - intros [|[|j]] Hj; [now exists "timeout"%string ..|lia].
  - reflexivity.
Defined.

Lemma connect_exhausted_witness :
  _connect_with_retry always_down 3 2
  = {| result := DatabaseConnectionError; attempts := 3; slept := 6 |}.
Proof.
  apply (connect_exhausted always_down 2 3).
  intros j _. now exists "timeout"%string.
Defined.

Lemma connect_propagates_witness :
  result (_connect_with_retry
            (fun _ => OtherException "ConfigurationError") 3 2)
  = Propagated "ConfigurationError".
Proof.
  rewrite (connect_propagates (fun _ => OtherException "ConfigurationError")
             2 3 0 "ConfigurationError"); [reflexivity|lia| |reflexivity].
  intros j Hj. lia.
Defined.

(** ** The products collection (db_connector.py, lines 54-112) *)

Section Collection.

Lemma firstn_incl {A} (n : nat) (l : list A) x :
  In x (firstn n l) -> In x l.
Proof.
  intros H. rewrite <- (firstn_skipn n l). apply in_or_app. now left.
Qed.

Lemma fetch_collection_eq (docs : list Document) (limit : nat) :
  fetch_training_batch (collection_aggregate docs) limit
  = firstn limit (map project_stage (filter match_stage docs)).
Proof.
  unfold fetch_training_batch, collection_aggregate.
  destruct limit; reflexivity.
Qed.

Lemma find_apply_update_one id op docs :
  find_doc id (apply_update_one op docs)
  = if (id =? filter_id op)%N
    then option_map
           (fun d => with_forecast d (set_ai_forecast op)
                       (set_last_analyzed op))
           (find_doc id docs)
    else find_doc id docs.
Proof.
  unfold find_doc. induction docs as [|d docs IH]; simpl.
  - now destruct (id =? filter_id op)%N.
  - destruct (doc_id d =? filter_id op)%N eqn:Ef; simpl.
    + apply N.eqb_eq in Ef. destruct (doc_id d =? id)%N eqn:Ei.
      * apply N.eqb_eq in Ei.
        assert (E : (id =? filter_id op)%N = true)
          by (apply N.eqb_eq; congruence).
        now rewrite E.
      * apply N.eqb_neq in Ei.
        assert (E : (id =? filter_id op)%N = false)
          by (apply N.eqb_neq; congruence).
        now rewrite E.
    + apply N.eqb_neq in Ef. destruct (doc_id d =? id)%N eqn:Ei.
      * apply N.eqb_eq in Ei.
        assert (E : (id =? filter_id op)%N = false)
          by (apply N.eqb_neq; congruence).
        now rewrite E.
      * exact IH.
Qed.

Lemma find_fold_other id ops : forall docs,
  ~ In id (map filter_id ops) ->
  find_doc id (fold_left (fun ds op => apply_update_one op ds) ops docs)
  = find_doc id docs.
Proof.
  induction ops as [|op ops IH]; intros docs Hnot; simpl; [reflexivity|].
  rewrite IH by (intros H; apply Hnot; now right).
  rewrite find_apply_update_one.
  assert (E : (id =? filter_id op)%N = false).
  { apply N.eqb_neq. intros ->. apply Hnot. now left. }
  now rewrite E.
Qed.

Lemma find_fold_updated op ops : forall docs,
  NoDup (map filter_id ops) -> In op ops ->
  find_doc (filter_id op)
    (fold_left (fun ds op => apply_update_one op ds) ops docs)
  = option_map
      (fun d => with_forecast d (set_ai_forecast op) (set_last_analyzed op))
      (find_doc (filter_id op) docs).
Proof.
  induction ops as [|op0 ops IH]; intros docs Hnd Hin; [destruct Hin|].
  simpl in Hnd. apply NoDup_cons_iff in Hnd. destruct Hnd as [Hnot Hnd].
  simpl. destruct Hin as [->|Hin].
  - rewrite find_fold_other by exact Hnot.
    rewrite find_apply_update_one, N.eqb_refl. reflexivity.
  - rewrite (IH _ Hnd Hin), find_apply_update_one.
    assert (E : (filter_id op =? filter_id op0)%N = false).
    { apply N.eqb_neq. intros E. apply Hnot. rewrite <- E.
      now apply in_map. }
    now rewrite E.
Qed.

Lemma operations_ids clock updates : forall k,
  map filter_id (operations clock k updates) = map upd_id updates.
Proof.
  induction updates as [|u updates IH]; intros k; simpl; [reflexivity|].
  now rewrite IH.
Qed.

Lemma operations_in clock updates u : forall k,
  In u updates ->
  exists j, In {| filter_id := upd_id u; set_ai_forecast := prediction u;
                  set_last_analyzed := clock j |}
              (operations clock k updates).
Proof.
  induction updates as [|u0 updates IH]; intros k Hin; [destruct Hin|].
  simpl. destruct Hin as [->|Hin].
  - exists k. now left.
  - destruct (IH (S k) Hin) as [j Hj]. exists j. now right.
Qed.

Lemma bulk_find_updated clock updates docs u d :
  NoDup (map upd_id updates) -> In u updates ->
  find_doc (upd_id u) docs = Some d ->
  exists t,
    find_doc (upd_id u)
      (bulk_update_predictions mongo_bulk_write clock updates docs)
    = Some (with_forecast d (prediction u) t).
Proof.
  unfold bulk_update_predictions.
  intros Hnd Hu Hd. destruct updates as [|u0 us]; [destruct Hu|].
  cbn [after mongo_bulk_write].
  destruct (operations_in clock (u0 :: us) u 0%nat Hu) as [j Hj].
  exists (clock j).
  rewrite <- (operations_ids clock (u0 :: us) 0%nat) in Hnd.
  pose proof (find_fold_updated _ _ docs Hnd Hj) as E.
  cbn [filter_id set_ai_forecast set_last_analyzed] in E.
  rewrite E, Hd. reflexivity.
Qed.

Lemma bulk_find_other clock updates docs id :
  ~ In id (map upd_id updates) ->
  find_doc id (bulk_update_predictions mongo_bulk_write clock updates docs)
  = find_doc id docs.
Proof.
  unfold bulk_update_predictions.
  intros Hnot. destruct updates as [|u0 us]; [reflexivity|].
  cbn [after mongo_bulk_write]. apply find_fold_other.
  now rewrite operations_ids.
Qed.

(** X19.  When the bulk write applies every operation (no write error):
    after a bulk write of updates with distinct identifiers, the
    document found under the identifier of an update is the one found
    before with its forecast set to the prediction of that update; the
    document found under an identifier that no update names is the one
    found before. *)
Theorem bulk_update_then_find (clock : nat -> Z) (updates : list Update)
    (docs : list Document) :
  let docs' := bulk_update_predictions mongo_bulk_write clock updates docs in
  (NoDup (map upd_id updates) ->
   forall u d, In u updates -> find_doc (upd_id u) docs = Some d ->
     exists t, find_doc (upd_id u) docs'
               = Some (with_forecast d (prediction u) t)) /\
  (forall id, ~ In id (map upd_id updates) ->
     find_doc id docs' = find_doc id docs).
Proof.
  cbv zeta. split.
  - intros Hnd u d Hu Hd. now apply bulk_find_updated.
  - intros id Hnot. now apply bulk_find_other.
Qed.

Lemma bulk_update_then_find_witness :
  exists t,
    find_doc 3 (bulk_update_predictions mongo_bulk_write
                  (fun k => 1000 + Z.of_nat k) sample_updates sample_docs)
    = Some (with_forecast (doc_of product_C) sample_prediction t).
Proof.
  apply (proj1 (bulk_update_then_find (fun k => 1000 + Z.of_nat k)
                  sample_updates sample_docs)
           ltac:(repeat constructor; simpl; intuition discriminate)
           {| upd_id := 3; prediction := sample_prediction |}
           (doc_of product_C)).
  - right. now left.
  - reflexivity.
Defined.

End Collection.

(** ** The report and the service on a collection (app.py, lines 22-77) *)

Section ReportFacts.

Variable prophet : list (Z * Q) -> Exc.t (list ForecastRow).

Lemma count_le_length {A} (f : A -> bool) l : (count f l <= length l)%nat.
Proof.
  induction l as [|x l IH]; [apply Nat.le_refl|].
  rewrite count_cons. simpl. destruct (f x); lia.
Qed.

Lemma count_exclusive {A} (f g : A -> bool) l :
  (forall x, f x && g x = false) ->
  (count f l + count g l <= length l)%nat.
Proof.
  intros H. induction l as [|x l IH]; [apply Nat.le_refl|].
  rewrite !count_cons. simpl. specialize (H x).
  destruct (f x), (g x); simpl in H; try discriminate; lia.
Qed.

Lemma trends_exclusive u :
  has_trend Uptrend u && has_trend Downtrend u = false.
Proof. unfold has_trend. now destruct (trend (prediction u)). Qed.

(** X20.  In every report the number of updated products is at most the number
    processed, the uptrend and downtrend counters together and the
    critical counter are at most the number updated, and the bulk write is
    called once with as many updates as reported, or not at all when
    nothing was updated. *)
Theorem report_invariants (products : list Product) :
  exists updated stats,
    body (report prophet products)
    = Report (length products) updated stats /\
    (updated <= length products)%nat /\
    (uptrend stats + downtrend stats <= updated)%nat /\
    (critical stats <= updated)%nat /\
    (bulk_calls (report prophet products) = [] <-> updated = 0%nat) /\
    (forall updates, In updates (bulk_calls (report prophet products)) ->
       bulk_calls (report prophet products) = [updates] /\
       length updates = updated).
Proof.
  rewrite report_eq. cbn [body bulk_calls].
  exists (length (successes prophet products)),
         (stats_of (successes prophet products)).
  split; [reflexivity|]. split; [|split; [|split; [|split]]].
  - rewrite successes_count. apply count_le_length.
  - cbn [uptrend downtrend stats_of]. apply count_exclusive.
    apply trends_exclusive.
  - cbn [critical stats_of]. apply count_le_length.
  - destruct (successes prophet products); simpl; split;
      try reflexivity; discriminate.
  - intros updates Hin. destruct (successes prophet products) eqn:E.
    + destruct Hin.
    + destruct Hin as [<-|[]]. now split.
Qed.

Lemma successes_none products :
  (forall p pr, In p products -> predict prophet p <> Success pr) ->
  successes prophet products = [].
Proof.
  induction products as [|p products IH]; intros H; [reflexivity|].
  rewrite successes_cons.
  destruct (predict prophet p) as [| msg | pr] eqn:E.
  - apply IH. intros q pr Hq. apply H. now right.
  - apply IH. intros q pr Hq. apply H. now right.
  - exfalso. apply (H p pr); [now left|exact E].
Qed.

(** X21.  A batch in which no product can be analysed is still answered with a
    report: everything processed, nothing updated, all counters at zero,
    and no bulk write. *)
Theorem all_rejected_report (products : list Product) :
  (forall p pr, In p products -> predict prophet p <> Success pr) ->
  report prophet products
  = {| body := Report (length products) 0
                 {| uptrend := 0; downtrend := 0; critical := 0 |};
       status_code := 200;
       bulk_calls := [] |}.
Proof.
  intros H. rewrite report_eq, (successes_none _ H). reflexivity.
Qed.

End ReportFacts.

Lemma all_rejected_report_witness :
  body (report toy_prophet [product_A; product_B])
  = Report 2 0 {| uptrend := 0; downtrend := 0; critical := 0 |}.
Proof.
  rewrite (all_rejected_report toy_prophet [product_A; product_B]).
  - reflexivity.
  - intros p pr [<-|[<-|[]]]; vm_compute; discriminate.
Defined.

Section MissingQuantity.

Variable prophet : list (Z * Q) -> Exc.t (list ForecastRow).

Lemma generate_forecast_Success current_qty history pr :
  generate_forecast prophet current_qty history = Success pr ->
  exists df out,
    _preprocess_data history = Some df /\ prophet df = Exc.Ret out /\
    pr = analyze current_qty (tail 30 out).
Proof.
  unfold generate_forecast.
  destruct (_preprocess_data history) as [df|]; [|discriminate].
  destruct (prophet df) as [out|msg] eqn:E; simpl; [|discriminate].
  intros [= <-]. now exists df, out.
Qed.

(** X22.  A product whose document has no quantity is analysed with a stock of
    0: when its analysis succeeds, it is reported out of stock on the
    first day of its forecast, and so is any product whose quantity is
    zero or less. *)
Theorem missing_quantity_out_of_stock (p : Product) (pr : PredictionData) :
  match quantity p with
  | Some q => (q <= 0)%Q
  | None => True
  end ->
  predict prophet p = Success pr ->
  stock_out_date pr = option_map ds (hd_error (forecast_data pr)).
Proof.
  intros Hq Hpr. unfold predict in Hpr.
  apply generate_forecast_Success in Hpr.
  destruct Hpr as (df & out & _ & _ & ->).
  change (forecast_data (analyze _ (tail 30 out)))
    with (tail 30 (tail 30 out)).
  rewrite tail_tail.
  change (stock_out_date (analyze ?q ?f)) with (depletion_loop q f).
  destruct (tail 30 out) as [|r rows]; [reflexivity|].
  apply depletion_loop_no_stock.
  destruct (quantity p); [exact Hq|lra].
Qed.

End MissingQuantity.

Lemma missing_quantity_out_of_stock_witness :
  exists pr,
    predict toy_prophet
      {| _id := 4%N; name := None; quantity := None;
         history := Some ten_days |} = Success pr /\
    stock_out_date pr = Some 110.
Proof.
  eexists. split; [vm_compute; reflexivity|].
  rewrite (missing_quantity_out_of_stock toy_prophet
             {| _id := 4%N; name := None; quantity := None;
                history := Some ten_days |}).
  - reflexivity.
  - exact I.
  - vm_compute. reflexivity.
Defined.

Section ServiceOnCollection.

Variable prophet : list (Z * Q) -> Exc.t (list ForecastRow).
Variable clock : nat -> Z.

Lemma fetched_eligible docs :
  fetch_training_batch (collection_aggregate docs) 2000
  = map project_stage (eligible docs).
Proof. rewrite fetch_collection_eq. unfold eligible. apply firstn_map. Qed.

Lemma run_batch_on_collection docs :
  run_batch_prediction prophet (collection_aggregate docs)
  = match map project_stage (eligible docs) with
    | [] => {| body := NoData "No products with sufficient history found.";
               status_code := 200;
               bulk_calls := [] |}
    | _ :: _ => report prophet (map project_stage (eligible docs))
    end.
Proof.
  unfold run_batch_prediction. now rewrite fetched_eligible.
Qed.

Lemma serve_eq clk docs :
  serve prophet clk docs
  = (run_batch_prediction prophet (collection_aggregate docs),
     bulk_update_predictions mongo_bulk_write clk
       (successes prophet (map project_stage (eligible docs))) docs).
Proof.
  unfold serve. f_equal. rewrite run_batch_on_collection.
  destruct (map project_stage (eligible docs)) as [|p ps] eqn:E;
    [reflexivity|].
  rewrite report_eq. cbn [bulk_calls].
  now destruct (successes prophet (p :: ps)).
Qed.

Lemma eligible_in docs d :
  In d (eligible docs) -> In d docs /\ match_stage d = true.
Proof.
  intros H. apply firstn_incl in H. now apply filter_In in H.
Qed.

Lemma NoDup_ids_filter (f : Document -> bool) docs :
  NoDup (map doc_id docs) -> NoDup (map doc_id (filter f docs)).
Proof.
  induction docs as [|d docs IH]; simpl; intros H; [constructor|].
  apply NoDup_cons_iff in H. destruct H as [Hnot Hnd].
  destruct (f d); simpl; [|now apply IH].
  constructor; [|now apply IH].
  intros Hin. apply Hnot. apply in_map_iff in Hin.
  destruct Hin as (d' & Hid & Hd'). apply filter_In in Hd'.
  apply in_map_iff. exists d'. tauto.
Qed.

Lemma NoDup_ids_firstn n docs :
  NoDup (map doc_id docs) -> NoDup (map doc_id (firstn n docs)).
Proof.
  intros H. rewrite <- (firstn_skipn n docs), map_app in H.
  now apply NoDup_app_remove_r in H.
Qed.

Lemma NoDup_ids_successes products :
  NoDup (map _id products) ->
  NoDup (map upd_id (successes prophet products)).
Proof.
  induction products as [|p products IH]; simpl; intros H; [constructor|].
  apply NoDup_cons_iff in H. destruct H as [Hnot Hnd].
  fold (successes prophet products).
  destruct (predict prophet p) as [| msg | pr]; simpl; try now apply IH.
  constructor; [|now apply IH].
  intros Hin. apply Hnot. apply in_map_iff in Hin.
  destruct Hin as (u & Hid & Hu). apply in_successes in Hu.
  destruct Hu as (q & Hq & Hidq & _). apply in_map_iff. exists q.
  split; [congruence|exact Hq].
Qed.

Lemma NoDup_update_ids docs :
  NoDup (map doc_id docs) ->
  NoDup (map upd_id
           (successes prophet (map project_stage (eligible docs)))).
Proof.
  intros H. apply NoDup_ids_successes. rewrite map_map. cbn [project_stage _id].
  change (NoDup (map doc_id (eligible docs))).
  unfold eligible. now apply NoDup_ids_firstn, NoDup_ids_filter.
Qed.

Lemma find_doc_in docs d :
  NoDup (map doc_id docs) -> In d docs -> find_doc (doc_id d) docs = Some d.
Proof.
  unfold find_doc. induction docs as [|d0 docs IH]; intros Hnd Hin;
    [destruct Hin|].
  simpl in Hnd. apply NoDup_cons_iff in Hnd. destruct Hnd as [Hnot Hnd].
  simpl. destruct Hin as [->|Hin].
  - now rewrite N.eqb_refl.
  - destruct (doc_id d0 =? doc_id d)%N eqn:E; [|now apply IH].
    apply N.eqb_eq in E. exfalso. apply Hnot. rewrite E. now apply in_map.
Qed.

Lemma ids_injective docs d d' :
  NoDup (map doc_id docs) -> In d docs -> In d' docs ->
  doc_id d = doc_id d' -> d = d'.
Proof.
  intros Hnd Hd Hd' E.
  pose proof (find_doc_in _ _ Hnd Hd) as H.
  pose proof (find_doc_in _ _ Hnd Hd') as H'.
  rewrite E in H. congruence.
Qed.

(** X24.  After a run whose bulk write applies every operation (no
    write error), every document that was worked on and whose analysis
    succeeded carries the prediction computed from its own quantity and
    history. *)
Theorem serve_persists (docs : list Document) (d : Document)
    (pr : PredictionData) :
  NoDup (map doc_id docs) ->
  In d (eligible docs) ->
  predict prophet (project_stage d) = Success pr ->
  exists t, find_doc (doc_id d) (snd (serve prophet clock docs))
            = Some (with_forecast d pr t).
Proof.
  intros Hnd Hd Hpr. rewrite serve_eq. cbn [snd].
  apply (bulk_find_updated clock _ docs
           {| upd_id := doc_id d; prediction := pr |} d).
  - now apply NoDup_update_ids.
  - apply in_successes. exists (project_stage d).
    split; [now apply in_map|]. now split.
  - apply find_doc_in; [exact Hnd|]. now apply eligible_in.
Qed.

(** X25.  A run never touches a document it did not work on or whose analysis
    did not succeed: such a document, with whatever forecast it carried,
    is found unchanged afterwards. *)
Theorem serve_keeps_others (docs : list Document) (d : Document) :
  NoDup (map doc_id docs) ->
  In d docs ->
  (~ In d (eligible docs) \/
   forall pr, predict prophet (project_stage d) <> Success pr) ->
  find_doc (doc_id d) (snd (serve prophet clock docs)) = Some d.
Proof.
  intros Hnd Hd Hcase. rewrite serve_eq. cbn [snd].
  rewrite bulk_find_other; [now apply find_doc_in|].
  intros Hin. apply in_map_iff in Hin. destruct Hin as (u & Hid & Hu).
  apply in_successes in Hu. destruct Hu as (p & Hp & Hidp & Hpr).
  apply in_map_iff in Hp. destruct Hp as (d' & <- & Hd').
  assert (E : d' = d).
  { apply (ids_injective docs); trivial.
    - now apply eligible_in.
    - cbn [project_stage _id] in Hidp. congruence. }
  subst d'. destruct Hcase as [Hnot|Hfail].
  - contradiction.
  - apply (Hfail (prediction u)). exact Hpr.
Qed.

End ServiceOnCollection.

Lemma sample_docs_NoDup : NoDup (map doc_id sample_docs).
Proof. repeat constructor; simpl; intuition discriminate. Qed.

Lemma serve_persists_witness :
  exists t,
    find_doc 3 (snd (serve toy_prophet (fun k => 1000 + Z.of_nat k)
                       sample_docs))
    = Some (with_forecast (doc_of product_C) sample_prediction t).
Proof.
  apply (serve_persists toy_prophet (fun k => 1000 + Z.of_nat k)
           sample_docs (doc_of product_C) sample_prediction
           sample_docs_NoDup).
  - right. right. now left.
  - vm_compute. reflexivity.
Defined.

Lemma serve_keeps_others_witness :
  find_doc 2 (snd (serve toy_prophet (fun k => 1000 + Z.of_nat k)
                     sample_docs))
  = Some (doc_of product_B).
Proof.
  apply (serve_keeps_others toy_prophet (fun k => 1000 + Z.of_nat k)
           sample_docs (doc_of product_B) sample_docs_NoDup).
  - right. now left.
  - right. intros pr. vm_compute. discriminate.
Defined.

(** * float64 properties *)

(** ** Order and subtraction of floats *)

Section FloatOrder.
Import PrimFloat FloatOps SpecFloat FloatAxioms.
Local Open Scope float_scope.

Lemma Prim2SF_zero : Prim2SF 0 = S754_zero false.
Proof. reflexivity. Qed.

Lemma SFcompare_antisym x y c :
  SFcompare x y = Some c -> SFcompare y x = Some (CompOpp c).
Proof.
  destruct x as [sx|sx| |sx mx ex], y as [sy|sy| |sy my ey]; simpl;
    try discriminate;
    try (intros [= <-]; try destruct sx; try destruct sy; reflexivity).
  intros [= <-]. f_equal.
  destruct sx, sy; try reflexivity;
    rewrite (Z.compare_antisym ex ey);
    destruct (ex ?= ey)%Z; simpl; try reflexivity;
    rewrite <- (Pos.compare_cont_antisym _ _ Eq); simpl;
    try rewrite CompOpp_involutive; reflexivity.
Qed.

Lemma leb_not_ltb x y : (x <=? y) = true -> (y <? x) = false.
Proof.
  rewrite ltb_spec, leb_spec. unfold SFltb, SFleb.
  destruct (SFcompare (Prim2SF x) (Prim2SF y)) as [c|] eqn:E;
    [|discriminate].
  rewrite (SFcompare_antisym _ _ _ E). now destruct c.
Qed.

(** [x - 0.0] is [x], whatever [x] is. *)
Lemma sub_zero x : x - 0 = x.
Proof.
  apply Prim2SF_inj. rewrite sub_spec, Prim2SF_zero.
  destruct (Prim2SF x) as [[|]|[|]| |s m e]; reflexivity.
Qed.

(** Subtracting a positive amount from a stock of zero leaves a stock
    that is at most zero. *)
Lemma zero_minus_positive q y :
  (q =? 0) = true -> (0 <? y) = true -> (q - y <=? 0) = true.
Proof.
  rewrite eqb_spec, ltb_spec, leb_spec, sub_spec, Prim2SF_zero.
  unfold SFeqb, SFltb, SFleb.
  destruct (Prim2SF q) as [sq|sq| |sq mq eq],
           (Prim2SF y) as [sy|[|]| |[|] my ey];
    simpl; try discriminate; try destruct sq; try destruct sy;
    simpl; try discriminate; reflexivity.
Qed.

End FloatOrder.

(** ** Transitivity of the order *)

Section FloatTrans.
Import PrimFloat FloatOps SpecFloat FloatAxioms.
Local Open Scope float_scope.

Ltac cmp_cases :=
  repeat match goal with
  | H : context [Pos.compare_cont Eq ?a ?b] |- _ =>
      change (Pos.compare_cont Eq a b) with (Pos.compare a b) in H
  | |- context [Pos.compare_cont Eq ?a ?b] =>
      change (Pos.compare_cont Eq a b) with (Pos.compare a b)
  end;
  repeat match goal with
  | H : context [Z.compare ?a ?b] |- _ =>
      destruct (Z.compare_spec a b); simpl in H; try discriminate H
  | H : context [Pos.compare ?a ?b] |- _ =>
      destruct (Pos.compare_spec a b); simpl in H; try discriminate H
  end;
  repeat match goal with
  | |- context [Z.compare ?a ?b] =>
      destruct (Z.compare_spec a b); simpl
  | |- context [Pos.compare ?a ?b] =>
      destruct (Pos.compare_spec a b); simpl
  end;
  subst; try reflexivity; try discriminate; try lia.

Lemma SFleb_trans x y z :
  SFleb x y = true -> SFleb y z = true -> SFleb x z = true.
Proof.
  unfold SFleb.
  destruct x as [sx|sx| |sx mx ex], y as [sy|sy| |sy my ey],
           z as [sz|sz| |sz mz ez]; simpl;
    try discriminate; try reflexivity;
    try destruct sx; try destruct sy; try destruct sz; simpl;
    try discriminate; try reflexivity;
    intros H1 H2; cmp_cases.
Qed.

Lemma SFltb_trans x y z :
  SFltb x y = true -> SFltb y z = true -> SFltb x z = true.
Proof.
  unfold SFltb.
  destruct x as [sx|sx| |sx mx ex], y as [sy|sy| |sy my ey],
           z as [sz|sz| |sz mz ez]; simpl;
    try discriminate; try reflexivity;
    try destruct sx; try destruct sy; try destruct sz; simpl;
    try discriminate; try reflexivity;
    intros H1 H2; cmp_cases.
Qed.

Lemma leb_trans x y z :
  (x <=? y) = true -> (y <=? z) = true -> (x <=? z) = true.
Proof. rewrite !leb_spec. apply SFleb_trans. Qed.

Lemma ltb_trans x y z :
  (x <? y) = true -> (y <? z) = true -> (x <? z) = true.
Proof. rewrite !ltb_spec. apply SFltb_trans. Qed.

Lemma eqb_leb x y : (x =? y) = true -> (x <=? y) = true /\ (y <=? x) = true.
Proof.
  rewrite eqb_spec, !leb_spec. unfold SFeqb, SFleb.
  destruct (SFcompare (Prim2SF x) (Prim2SF y)) as [c|] eqn:E;
    [|discriminate].
  rewrite (SFcompare_antisym _ _ _ E). now destruct c.
Qed.

End FloatTrans.

(** ** The depletion loop on float64 *)

Section FloatDepletion.
Import PrimFloat Float64 Analyzer AnalyzerDesign.
Local Open Scope float_scope.

Lemma running_stock_cons q row rest k :
  running_stock q (row :: rest) (S k) =
  running_stock (q - (if 0 <? yhat row then yhat row else 0)) rest k.
Proof. reflexivity. Qed.

Lemma running_stock_S q future k row :
  nth_error future k = Some row ->
  running_stock q future (S k) =
  running_stock q future k - (if 0 <? yhat row then yhat row else 0).
Proof.
  revert q k. induction future as [|r rest IH]; intros q k E.
  - destruct k; discriminate.
  - destruct k as [|k].
    + injection E as ->. reflexivity.
    + rewrite running_stock_cons. rewrite (IH _ k E). reflexivity.
Qed.

(** The loop stops on the first day whose running stock is at most zero. *)
Lemma stock_out_first_day q future d :
  depletion_loop q future = Some d <->
  exists k row, nth_error future k = Some row /\
                first_depleted q future k /\ d = ds row.
Proof.
  revert q. induction future as [|r rest IH]; intros q; simpl.
  - split; [discriminate|]. intros (k & row & E & _). destruct k; discriminate.
  - unfold max0.
    destruct (q - (if 0 <? yhat r then yhat r else 0) <=? 0) eqn:T.
    + split.
      * intros [= <-]. exists 0%nat, r. repeat split; trivial.
        intros j Hj. lia.
      * intros (k & row & E & [D F] & ->). destruct k as [|k].
        -- injection E as ->. reflexivity.
        -- specialize (F 0%nat ltac:(lia)).
           unfold running_stock in F. simpl in F. congruence.
    + rewrite IH. split.
      * intros (k & row & E & [D F] & ->). exists (S k), row.
        repeat split; trivial.
        intros [|j] Hj; [exact T|]. rewrite running_stock_cons.
        apply F. lia.
      * intros (k & row & E & [D F] & ->). destruct k as [|k].
        -- unfold running_stock in D. simpl in D. congruence.
        -- exists k, row. repeat split; trivial.
           intros j Hj. specialize (F (S j) ltac:(lia)).
           rewrite running_stock_cons in F. exact F.
Qed.

Lemma stock_out_never q future :
  depletion_loop q future = None <->
  forall k, (k < length future)%nat ->
    (running_stock q future (S k) <=? 0) = false.
Proof.
  revert q. induction future as [|r rest IH]; intros q; simpl.
  - split; trivial. intros _ k Hk. lia.
  - unfold max0.
    destruct (q - (if 0 <? yhat r then yhat r else 0) <=? 0) eqn:T.
    + split; [discriminate|]. intros F.
      specialize (F 0%nat ltac:(lia)).
      unfold running_stock in F. simpl in F. congruence.
    + rewrite IH. split.
      * intros F [|k] Hk; [exact T|]. rewrite running_stock_cons.
        apply F. lia.
      * intros F k Hk. specialize (F (S k) ltac:(lia)).
        rewrite running_stock_cons in F. exact F.
Qed.

(** C1.  The depletion simulation.  For every numeric current quantity
    [q] and every forecast, [running_stock] starts at [q]; on each day it
    loses the day's estimate when that is positive and stays as it is
    otherwise (a negative estimate consumes nothing, and never adds to
    the stock); the stock-out date is the date of
    the first day at whose end the running stock is [<= 0], and it is
    null exactly when no day of the horizon ends with a running stock
    [<= 0]; with a current quantity of 0 and a positive estimate on the
    first day, the stock-out date is the first forecast day.  This is
    the stock-out date of every prediction the analysis returns. *)
Theorem depletion_simulation (q : float) (future : list ForecastRow) :
  running_stock q future 0 = q /\
  (forall k row, nth_error future k = Some row ->
     running_stock q future (S k) =
     running_stock q future k - (if 0 <? yhat row then yhat row else 0)) /\
  (forall k row, nth_error future k = Some row ->
     (0 <? yhat row) = false ->
     running_stock q future (S k) = running_stock q future k) /\
  (forall d, depletion_loop q future = Some d <->
     exists k row, nth_error future k = Some row /\
                   first_depleted q future k /\ d = ds row) /\
  (depletion_loop q future = None <->
     forall k, (k < length future)%nat ->
       (running_stock q future (S k) <=? 0) = false) /\
  (forall row rest, future = row :: rest ->
     (q =? 0) = true -> (0 <? yhat row) = true ->
     depletion_loop q future = Some (ds row)) /\
  (forall p, analyze (QtyNumber q) future = Exc.Ret p ->
     stock_out_date p = depletion_loop q future).
Proof.
  split; [reflexivity|].
  split; [intros k row E; apply running_stock_S; exact E|].
  split.
  { intros k row E N. rewrite (running_stock_S _ _ _ _ E), N.
    apply sub_zero. }
  split; [intros d; apply stock_out_first_day|].
  split; [apply stock_out_never|].
  split.
  { intros row rest -> Z P. simpl. unfold max0. rewrite P.
    rewrite (zero_minus_positive _ _ Z P). reflexivity. }
  intros p A. unfold analyze in A.
  destruct (int_of_float (predicted_demand future)); simpl in A;
    [|discriminate].
  injection A as <-. reflexivity.
Qed.

End FloatDepletion.

(** With one unit in stock and a forecast of 0.1 a day, the tenth
    subtraction leaves 1.4e-16, and the stock is out on day 11. *)
Lemma depletion_simulation_witness :
  Analyzer.depletion_loop PrimFloat.one AnalyzerSamples.tenths = Some 11.
Proof.
  apply (proj1 (proj2 (proj2 (proj2
           (depletion_simulation PrimFloat.one AnalyzerSamples.tenths))))).
  exists 10%nat. eexists. split; [reflexivity|]. split; [|reflexivity].
  split; [vm_compute; reflexivity|].
  intros j Hj.
  do 10 (destruct j as [|j]; [vm_compute; reflexivity|]). lia.
Defined.

(** ** The analysis on float64 *)

Section FloatValue.
Import PrimFloat FloatOps SpecFloat FloatAxioms.
Import Float64 Analyzer AnalyzerDesign.
Local Open Scope float_scope.

(** A NaN is the one float that is not equal to itself, and it is in
    no order with 0. *)
Lemma is_nan_spec x : is_nan x = true <-> Prim2SF x = S754_nan.
Proof.
  unfold is_nan. rewrite eqb_spec. unfold SFeqb.
  destruct (Prim2SF x) as [[|]|[|]| |[|] m e] eqn:E; simpl;
    try (split; [discriminate | discriminate || reflexivity]);
    try (split; reflexivity);
    rewrite Z.compare_refl; simpl; rewrite Pos.compare_cont_refl; simpl;
    split; discriminate.
Qed.

Lemma nan_not_above_zero x : is_nan x = true -> (0 <=? x) = false.
Proof.
  intros N. apply is_nan_spec in N. rewrite leb_spec, N. reflexivity.
Qed.

Lemma is_nan_zero : is_nan 0 = false.
Proof. reflexivity. Qed.

(** What [Series.sum()] adds up after [clip(lower=0)]: the demand
    counted for each day. *)
Lemma clip_then_skipna y :
  (if is_nan (clip_lower0 y) then 0 else clip_lower0 y) = counted_demand y.
Proof.
  unfold clip_lower0, counted_demand.
  destruct (is_nan y) eqn:N.
  - rewrite N, (nan_not_above_zero _ N). reflexivity.
  - destruct (0 <=? y); [rewrite N | rewrite is_nan_zero]; reflexivity.
Qed.

Lemma predicted_demand_counted future :
  predicted_demand future = numpy_sum (map counted_demand (map yhat future)).
Proof.
  unfold predicted_demand, nansum. rewrite map_map. f_equal.
  apply map_ext. intros y. apply clip_then_skipna.
Qed.

Lemma shiftl_pos m e : (0 <= e)%Z -> (0 < Z.shiftl (Zpos m) e)%Z.
Proof.
  intros He. rewrite Z.shiftl_mul_pow2 by exact He.
  apply Z.mul_pos_pos; [reflexivity|]. apply Z.pow_pos_nonneg; lia.
Qed.

(** The counted demand of an estimate is the maximum of 0 and the
    estimate. *)
Lemma counted_demand_value y v :
  value y = Some v -> value (counted_demand y) = Some (clamp v).
Proof.
  unfold counted_demand, value at 1, clamp. rewrite leb_spec, Prim2SF_zero.
  destruct (Prim2SF y) as [s|s| |s m e] eqn:E; try discriminate.
  - intros [= <-]. unfold SFleb; simpl. unfold value. rewrite E.
    reflexivity.
  - intros [= <-]. unfold SFleb; simpl. destruct s; simpl.
    + (* a negative estimate *)
      replace (Qle_bool 0 _) with false; [reflexivity|].
      symmetry. apply not_true_is_false. rewrite Qle_bool_iff.
      unfold Qle. destruct e as [|p|p]; simpl.
      * lia.
      * pose proof (shiftl_pos m (Zpos p) ltac:(lia)) as P.
        simpl in P. lia.
      * lia.
    + replace (Qle_bool 0 _) with true.
      * unfold value. rewrite E. reflexivity.
      * symmetry. rewrite Qle_bool_iff.
        unfold Qle. destruct e as [|p|p]; simpl.
        -- lia.
        -- pose proof (shiftl_pos m (Zpos p) ltac:(lia)) as P.
           simpl in P. lia.
        -- lia.
Qed.

(** [int(x)] is the integer part of the number [x] stands for. *)
Lemma int_of_float_value x z :
  int_of_float x = Exc.Ret z ->
  exists v, value x = Some v /\ z = truncate v.
Proof.
  unfold int_of_float, value, truncate.
  destruct (Prim2SF x) as [s|s| |s m e]; try discriminate.
  - intros [= <-]. exists 0%Q. split; reflexivity.
  - intros [= <-]. eexists. split; [reflexivity|].
    destruct e as [|p|p].
    + destruct s; simpl; rewrite ?Z.quot_1_r; reflexivity.
    + destruct s; simpl Qnum; simpl Qden; rewrite Z.quot_1_r; reflexivity.
    + assert (Q : Z.shiftr (Zpos m) (Zpos p)
                  = Z.quot (Zpos m) (Zpos (2 ^ p))).
      { rewrite Z.shiftr_div_pow2 by lia.
        rewrite Z.quot_div_nonneg by lia.
        rewrite Pos2Z.inj_pow. reflexivity. }
      destruct s; simpl Qnum; simpl Qden.
      * rewrite Q. change (Zneg m) with (- Zpos m)%Z.
        rewrite Z.quot_opp_l by lia. reflexivity.
      * exact Q.
Qed.

(** The fields of a prediction, one by one. *)
Lemma analyze_Ret qty future p :
  analyze qty future = Exc.Ret p ->
  exists q, qty = QtyNumber q /\
    stock_out_date p = depletion_loop q future /\
    trend p = classify_trend (start_sales future) (end_sales future) /\
    confidence p = confidence_score q future /\
    int_of_float (predicted_demand future)
      = Exc.Ret (predicted_monthly_demand p) /\
    forecast_data p = Num.tail 30 future.
Proof.
  unfold analyze. destruct qty as [q|]; [|discriminate].
  destruct (int_of_float (predicted_demand future)) as [z|msg] eqn:I;
    simpl; [|discriminate].
  intros [= <-]. exists q. simpl. repeat split; trivial.
Qed.

(** C6.  The monthly demand: the float64 sum, as [Series.sum()]
    computes it, of the demand counted for each of the days, truncated
    toward zero; and the demand counted for a day is the maximum of 0
    and its estimate. *)
Theorem monthly_demand_truncated (qty : Quantity)
    (future : list ForecastRow) (p : PredictionData) :
  analyze qty future = Exc.Ret p ->
  (exists v,
     value (numpy_sum (map counted_demand (map yhat future))) = Some v /\
     predicted_monthly_demand p = truncate v) /\
  (forall y v, value y = Some v ->
     value (counted_demand y) = Some (clamp v)).
Proof.
  intros A. split; [|apply counted_demand_value].
  destruct (analyze_Ret _ _ _ A) as (q & _ & _ & _ & _ & I & _).
  rewrite predicted_demand_counted in I.
  destruct (int_of_float_value _ _ I) as (v & V & T).
  exists v. split; assumption.
Qed.

End FloatValue.

(** ** Rounding of float64 products

    What [x * 1.1] and [x * 0.9] are for a float [x >= 0], from the
    definition of the rounded product. *)

Section Rounding64.
Import PrimFloat FloatOps SpecFloat FloatAxioms Float64.

(** The number of binary digits of a positive number. *)
Lemma digits2_pos_bounds p :
  2 ^ (Zpos (digits2_pos p) - 1) <= Zpos p < 2 ^ Zpos (digits2_pos p).
Proof.
  induction p as [p IH|p IH|]; simpl digits2_pos.
  - rewrite Pos2Z.inj_succ.
    replace (Z.succ (Zpos (digits2_pos p)) - 1)
      with (Z.succ (Zpos (digits2_pos p) - 1)) by lia.
    rewrite !Z.pow_succ_r by lia. lia.
  - rewrite Pos2Z.inj_succ.
    replace (Z.succ (Zpos (digits2_pos p)) - 1)
      with (Z.succ (Zpos (digits2_pos p) - 1)) by lia.
    rewrite !Z.pow_succ_r by lia. lia.
  - simpl. lia.
Qed.

Lemma digits2_pos_le p k :
  0 <= k -> (Zpos (digits2_pos p) <= k <-> Zpos p < 2 ^ k).
Proof.
  intros Hk. pose proof (digits2_pos_bounds p) as [Lo Hi]. split.
  - intros H. apply Z.lt_le_trans with (1 := Hi).
    apply Z.pow_le_mono_r; lia.
  - intros H. destruct (Z.le_gt_cases (Zpos (digits2_pos p)) k) as [|G];
      [assumption|].
    exfalso. assert (2 ^ k <= 2 ^ (Zpos (digits2_pos p) - 1))
      by (apply Z.pow_le_mono_r; lia).
    lia.
Qed.

(** One step of the right shift halves the mantissa. *)
Lemma shr_1_m mrs : 0 <= shr_m mrs -> shr_m (shr_1 mrs) = shr_m mrs / 2.
Proof.
  destruct mrs as [m r s]. simpl. intros Hm.
  rewrite <- Z.div2_div.
  destruct m as [|[p|p|]|p]; try reflexivity; lia.
Qed.

Lemma shr_iter_m n : forall mrs, 0 <= shr_m mrs ->
  shr_m (iter_pos shr_1 n mrs) = shr_m mrs / 2 ^ Zpos n.
Proof.
  induction n as [n IH|n IH|]; intros mrs Hm; simpl iter_pos.
  - assert (H1 : 0 <= shr_m (shr_1 mrs))
      by (rewrite shr_1_m by exact Hm; apply Z.div_pos; lia).
    assert (H2 : 0 <= shr_m (iter_pos shr_1 n (shr_1 mrs)))
      by (rewrite IH by exact H1; apply Z.div_pos; [lia|];
          apply Z.pow_pos_nonneg; lia).
    assert (E : 2 ^ Zpos n~1 = 2 * (2 ^ Zpos n * 2 ^ Zpos n)).
    { change (Zpos n~1) with (Z.succ (2 * Zpos n)).
      rewrite Z.pow_succ_r by lia. now rewrite Z.pow_twice_r. }
    rewrite IH, IH, shr_1_m by assumption.
    rewrite !Z.div_div by (try apply Z.pow_pos_nonneg; lia).
    now rewrite E.
  - assert (H2 : 0 <= shr_m (iter_pos shr_1 n mrs))
      by (rewrite IH by exact Hm; apply Z.div_pos; [lia|];
          apply Z.pow_pos_nonneg; lia).
    assert (E : 2 ^ Zpos n~0 = 2 ^ Zpos n * 2 ^ Zpos n).
    { change (Zpos n~0) with (2 * Zpos n). now rewrite Z.pow_twice_r. }
    rewrite IH, IH by assumption.
    rewrite !Z.div_div by (try apply Z.pow_pos_nonneg; lia).
    now rewrite E.
  - rewrite shr_1_m by exact Hm. reflexivity.
Qed.

Lemma round_nearest_even_bounds m l :
  m <= round_nearest_even m l <= m + 1.
Proof.
  destruct l as [|[| |]]; simpl; try lia.
  destruct (Z.even m); lia.
Qed.

Lemma binary_round_aux_shift (P : positive) (E : Z) (n : positive) :
  fexp prec emax (Zpos (digits2_pos P) + E) - E = Zpos n ->
  exists m, Zpos P / 2 ^ Zpos n <= m <= Zpos P / 2 ^ Zpos n + 1 /\
    binary_round_aux prec emax false (Zpos P) E loc_Exact
    = finalize m (E + Zpos n).
Proof.
  intros H. unfold binary_round_aux, shr_fexp at 1.
  cbn [Zdigits2 shr_record_of_loc]. rewrite H. cbn [shr].
  set (mrs := iter_pos shr_1 n _).
  exists (round_nearest_even (shr_m mrs) (loc_of_shr_record mrs)).
  split; [|reflexivity].
  replace (Zpos P / 2 ^ Zpos n) with (shr_m mrs).
  - apply round_nearest_even_bounds.
  - unfold mrs. rewrite shr_iter_m; simpl; [reflexivity|lia].
Qed.

Lemma finalize_zero e : -1074 <= e -> finalize 0 e = S754_zero false.
Proof.
  intros He. unfold finalize, shr_fexp, fexp, SpecFloat.emin.
  cbn [Zdigits2 shr_record_of_loc]. unfold prec, emax.
  destruct (Z.max (0 + e - 53) (3 - 1024 - 53) - e) eqn:N; try reflexivity.
  lia.
Qed.

Lemma finalize_small (p : positive) e :
  Zpos p < 2 ^ 53 -> -1074 <= e ->
  finalize (Zpos p) e
  = if e <=? 971 then S754_finite false p e else S754_infinity false.
Proof.
  intros Hp He. unfold finalize, shr_fexp, fexp, SpecFloat.emin.
  cbn [Zdigits2 shr_record_of_loc]. unfold prec, emax.
  apply (digits2_pos_le p 53) in Hp; [|lia].
  destruct (Z.max (Zpos (digits2_pos p) + e - 53) (3 - 1024 - 53) - e) eqn:N;
    try reflexivity.
  lia.
Qed.

Lemma finalize_carry e :
  -1074 <= e ->
  finalize (2 ^ 53) e
  = if e + 1 <=? 971 then S754_finite false (2 ^ 52) (e + 1)
    else S754_infinity false.
Proof.
  intros He. unfold finalize, shr_fexp, fexp, SpecFloat.emin.
  change (2 ^ 53) with (Zpos (2 ^ 53)).
  cbn [Zdigits2 shr_record_of_loc]. unfold prec, emax.
  change (Zpos (digits2_pos (2 ^ 53))) with 54.
  replace (Z.max (54 + e - 53) (3 - 1024 - 53) - e) with 1 by lia.
  reflexivity.
Qed.

Ltac powers :=
  change (2 ^ 52) with 4503599627370496 in *;
  change (2 ^ 53) with 9007199254740992 in *;
  change (2 ^ 104) with 20282409603651670423947251286016 in *;
  change (2 ^ 105) with 40564819207303340847894502572032 in *;
  change (2 ^ 106) with 81129638414606681695789005144064 in *.

Lemma SFleb_same_exponent mx p e :
  (mx <= p)%positive ->
  SFleb (S754_finite false mx e) (S754_finite false p e) = true.
Proof.
  intros H. unfold SFleb, SFcompare. rewrite Z.compare_refl.
  change (Pos.compare_cont Eq mx p) with (mx ?= p)%positive.
  destruct (Pos.compare_spec mx p); try reflexivity. lia.
Qed.

Lemma SFleb_lower_exponent mx p e e' :
  e < e' ->
  SFleb (S754_finite false mx e) (S754_finite false p e') = true.
Proof.
  intros H. unfold SFleb, SFcompare.
  now rewrite (proj2 (Z.compare_lt_iff e e') H).
Qed.

(** A canonical mantissa has at most 53 digits, and exactly 53 above
    the least exponent. *)
Lemma bounded_cases mx ex :
  bounded prec emax mx ex = true ->
  -1074 <= ex <= 971 /\ Zpos mx < 2 ^ 53 /\
  (2 ^ 52 <= Zpos mx \/ ex = -1074).
Proof.
  unfold bounded, canonical_mantissa, fexp, SpecFloat.emin, prec, emax.
  intros B. apply andb_true_iff in B. destruct B as [C Hex].
  apply Z.eqb_eq in C. apply Z.leb_le in Hex.
  pose proof (digits2_pos_le mx 53 ltac:(lia)) as D53.
  pose proof (digits2_pos_le mx 52 ltac:(lia)) as D52.
  split; [lia|]. split; [apply D53; lia|].
  destruct (Z.le_gt_cases (Zpos (digits2_pos mx)) 52) as [L|G].
  - right. lia.
  - left. destruct (Z.le_gt_cases (2 ^ 52) (Zpos mx)); [assumption|].
    apply D52 in H. lia.
Qed.

(** The amount by which the rounding shifts a product of [d] digits. *)
Lemma shift_amount P E n :
  Z.max (Zpos (digits2_pos P) + E - 53) (-1074) - E = Zpos n ->
  fexp prec emax (Zpos (digits2_pos P) + E) - E = Zpos n.
Proof. intros H. exact H. Qed.

(** The product of a non-negative float and 1.1 is not below it. *)
Lemma scale_up_finite mx ex :
  bounded prec emax mx ex = true ->
  SFleb (S754_finite false mx ex)
    (SF64mul (S754_finite false mx ex)
       (S754_finite false 4953959590107546 (-52))) = true.
Proof.
  intros B. destruct (bounded_cases _ _ B) as (Hex & Hmx & Hnorm).
  unfold SF64mul, SFmul. cbn [xorb].
  set (P := (mx * 4953959590107546)%positive).
  assert (HP : Zpos P = Zpos mx * 4953959590107546)
    by (unfold P; apply Pos2Z.inj_mul).
  pose proof (digits2_pos_le P 104 ltac:(lia)) as P104.
  pose proof (digits2_pos_le P 105 ltac:(lia)) as P105.
  pose proof (digits2_pos_le P 106 ltac:(lia)) as P106.
  powers.
  destruct (Z.le_gt_cases (Zpos (digits2_pos P)) 105) as [L|G].
  - destruct (binary_round_aux_shift P (ex + -52) 52) as (m & Hm & ->).
    { apply shift_amount. lia. }
    pose proof (Z.div_mod (Zpos P) (2 ^ 52) ltac:(lia)) as Q.
    pose proof (Z.mod_pos_bound (Zpos P) (2 ^ 52) ltac:(lia)) as R.
    set (q := Zpos P / 2 ^ 52) in *. set (r := Zpos P mod 2 ^ 52) in *.
    powers.
    replace (ex + -52 + 52) with ex by lia.
    destruct (Z.eq_dec m 9007199254740992) as [->|Hne].
    + change 9007199254740992 with (2 ^ 53).
      rewrite finalize_carry by lia.
      destruct (ex + 1 <=? 971); [|reflexivity].
      apply SFleb_lower_exponent. lia.
    + destruct m as [|p|p]; try lia.
      rewrite finalize_small by (powers; lia).
      rewrite (proj2 (Z.leb_le ex 971)) by lia.
      apply SFleb_same_exponent. lia.
  - destruct (binary_round_aux_shift P (ex + -52) 53) as (m & Hm & ->).
    { apply shift_amount. lia. }
    pose proof (Z.div_mod (Zpos P) (2 ^ 53) ltac:(lia)) as Q.
    pose proof (Z.mod_pos_bound (Zpos P) (2 ^ 53) ltac:(lia)) as R.
    set (q := Zpos P / 2 ^ 53) in *. set (r := Zpos P mod 2 ^ 53) in *.
    powers.
    replace (ex + -52 + 53) with (ex + 1) by lia.
    destruct (Z.eq_dec m 9007199254740992) as [->|Hne].
    + change 9007199254740992 with (2 ^ 53).
      rewrite finalize_carry by lia.
      destruct (ex + 1 + 1 <=? 971); [|reflexivity].
      apply SFleb_lower_exponent. lia.
    + destruct m as [|p|p]; try lia.
      rewrite finalize_small by (powers; lia).
      destruct (ex + 1 <=? 971); [|reflexivity].
      apply SFleb_lower_exponent. lia.
Qed.

Lemma SFleb_zero_finite mx ex :
  SFleb (S754_zero false) (S754_finite false mx ex) = true.
Proof. reflexivity. Qed.

(** The product of a non-negative float and 0.9 is not above it. *)
Lemma scale_down_finite mx ex :
  bounded prec emax mx ex = true ->
  SFleb
    (SF64mul (S754_finite false mx ex)
       (S754_finite false 8106479329266893 (-53)))
    (S754_finite false mx ex) = true.
Proof.
  intros B. destruct (bounded_cases _ _ B) as (Hex & Hmx & Hnorm).
  unfold SF64mul, SFmul. cbn [xorb].
  set (P := (mx * 8106479329266893)%positive).
  assert (HP : Zpos P = Zpos mx * 8106479329266893)
    by (unfold P; apply Pos2Z.inj_mul).
  pose proof (digits2_pos_le P 104 ltac:(lia)) as P104.
  pose proof (digits2_pos_le P 105 ltac:(lia)) as P105.
  pose proof (digits2_pos_le P 106 ltac:(lia)) as P106.
  powers.
  assert (Shift : (Zpos (digits2_pos P) <= 105 /\ -1074 < ex) \/
                  (106 <= Zpos (digits2_pos P) \/ ex = -1074)) by lia.
  destruct Shift as [[L Hlow]|Other].
  - destruct (binary_round_aux_shift P (ex + -53) 52) as (m & Hm & ->).
    { apply shift_amount. lia. }
    pose proof (Z.div_mod (Zpos P) (2 ^ 52) ltac:(lia)) as Q.
    pose proof (Z.mod_pos_bound (Zpos P) (2 ^ 52) ltac:(lia)) as R.
    set (q := Zpos P / 2 ^ 52) in *. set (r := Zpos P mod 2 ^ 52) in *.
    powers.
    replace (ex + -53 + 52) with (ex - 1) by lia.
    destruct (Z.eq_dec m 9007199254740992) as [->|Hne].
    + change 9007199254740992 with (2 ^ 53).
      rewrite finalize_carry by lia.
      replace (ex - 1 + 1) with ex by lia.
      rewrite (proj2 (Z.leb_le ex 971)) by lia.
      apply SFleb_same_exponent.
      change (2 ^ 52)%positive with 4503599627370496%positive. lia.
    + destruct m as [|p|p]; try lia.
      rewrite finalize_small by (powers; lia).
      rewrite (proj2 (Z.leb_le (ex - 1) 971)) by lia.
      apply SFleb_lower_exponent. lia.
  - destruct (binary_round_aux_shift P (ex + -53) 53) as (m & Hm & ->).
    { apply shift_amount. lia. }
    pose proof (Z.div_mod (Zpos P) (2 ^ 53) ltac:(lia)) as Q.
    pose proof (Z.mod_pos_bound (Zpos P) (2 ^ 53) ltac:(lia)) as R.
    set (q := Zpos P / 2 ^ 53) in *. set (r := Zpos P mod 2 ^ 53) in *.
    powers.
    replace (ex + -53 + 53) with ex by lia.
    destruct m as [|p|p]; try lia.
    + rewrite finalize_zero by lia. apply SFleb_zero_finite.
    + rewrite finalize_small by (powers; lia).
      rewrite (proj2 (Z.leb_le ex 971)) by lia.
      apply SFleb_same_exponent. lia.
Qed.

End Rounding64.

Section Scaling.
Import PrimFloat FloatOps SpecFloat FloatAxioms Float64.
Local Open Scope float_scope.

(** A float that is at least zero lies between its products with 0.9
    and with 1.1. *)
Lemma nonneg_scale_bounds x :
  (0 <=? x) = true ->
  (x * f0_9 <=? x) = true /\ (x <=? x * f1_1) = true.
Proof.
  rewrite !leb_spec, !mul_spec, Prim2SF_zero.
  change (Prim2SF f0_9) with (S754_finite false 8106479329266893 (-53)).
  change (Prim2SF f1_1) with (S754_finite false 4953959590107546 (-52)).
  pose proof (Prim2SF_valid x) as V.
  destruct (Prim2SF x) as [s|s| |s m e]; intros H.
  - destruct s; split; reflexivity.
  - destruct s; [discriminate H|]. split; reflexivity.
  - discriminate H.
  - destruct s; [discriminate H|]. split.
    + apply scale_down_finite. exact V.
    + apply scale_up_finite. exact V.
Qed.

End Scaling.

(** Thirty days at 0.9 a day: the float64 sum is 26.999999999999993 and
    the monthly demand is 26. *)
Lemma monthly_demand_truncated_witness :
  Analyzer.predicted_monthly_demand AnalyzerSamples.nine_tenths_prediction
  = 26 /\
  exists v,
    Float64.value
      (Float64.numpy_sum
         (map AnalyzerDesign.counted_demand
            (map Analyzer.yhat AnalyzerSamples.nine_tenths))) = Some v /\
    Analyzer.predicted_monthly_demand AnalyzerSamples.nine_tenths_prediction
    = AnalyzerDesign.truncate v.
Proof.
  split; [reflexivity|].
  apply (monthly_demand_truncated AnalyzerSamples.five_units
           AnalyzerSamples.nine_tenths
           AnalyzerSamples.nine_tenths_prediction).
  vm_compute. reflexivity.
Defined.

(** C6, counterexample.  A forecast whose only demand is 2.7 on one day
    has a monthly demand of 2, and the integer nearest to its total is
    3. *)
Lemma monthly_demand_not_nearest :
  Analyzer.analyze AnalyzerSamples.five_units
    AnalyzerSamples.fractional_forecast
  = Exc.Ret AnalyzerSamples.fractional_prediction /\
  Float64.value
    (Analyzer.predicted_demand AnalyzerSamples.fractional_forecast)
  = Some AnalyzerSamples.fractional_total /\
  Analyzer.predicted_monthly_demand AnalyzerSamples.fractional_prediction
  = 2 /\
  ~ Design.nearest_integer AnalyzerSamples.fractional_total 2 /\
  Design.nearest_integer AnalyzerSamples.fractional_total 3.
Proof.
  split; [vm_compute; reflexivity|].
  split; [vm_compute; reflexivity|].
  split; [reflexivity|].
  unfold Design.nearest_integer. rewrite <- !Qle_bool_iff.
  split; [vm_compute; discriminate | vm_compute; reflexivity].
Qed.

(** ** The trend on float64 *)

Section FloatTrend.
Import PrimFloat Float64 Analyzer AnalyzerDesign.
Import Forecaster(Trend(..)).
#[local] Set Warnings "-inexact-float".
Local Open Scope float_scope.

(** C7.  The trend classification.  Let [start] and [end] be the means
    of the estimates of the first and of the last 5 days.  When [start]
    is at least 0, the trend is 'uptrend' exactly when [end > start *
    1.1], 'downtrend' exactly when [end < start * 0.9] and 'stable'
    otherwise, and a tie [end = start] is 'stable'. *)
Theorem trend_classification (qty : Quantity) (future : list ForecastRow)
    (p : PredictionData) :
  let s := start_sales future in
  let e := end_sales future in
  analyze qty future = Exc.Ret p ->
  (0 <=? s) = true ->
  (trend p = Uptrend <-> above_band s e = true) /\
  (trend p = Downtrend <-> below_band s e = true) /\
  (trend p = Stable <-> above_band s e = false /\ below_band s e = false) /\
  ((e =? s) = true -> trend p = Stable).
Proof.
  intros s e A Pos.
  destruct (nonneg_scale_bounds s Pos) as [Lo Hi].
  destruct (analyze_Ret _ _ _ A) as (q & _ & _ & T & _).
  fold s e in T. rewrite T. unfold classify_trend, above_band, below_band.
  change 1.1 with f1_1. change 0.9 with f0_9.
  assert (Band : (s * f1_1 <? s * f0_9) = false).
  { apply leb_not_ltb. exact (leb_trans _ _ _ Lo Hi). }
  destruct (s * f1_1 <? e) eqn:Up.
  - destruct (e <? s * f0_9) eqn:Down.
    + rewrite (ltb_trans _ _ _ Up Down) in Band. discriminate.
    + repeat split; try discriminate; trivial.
      * intros [? _]; discriminate.
      * intros Tie. apply eqb_leb in Tie. destruct Tie as [Le _].
        rewrite (leb_not_ltb _ _ (leb_trans _ _ _ Le Hi)) in Up.
        discriminate.
  - destruct (e <? s * f0_9) eqn:Down.
    + repeat split; try discriminate; trivial.
      * intros [_ ?]; discriminate.
      * intros Tie. apply eqb_leb in Tie. destruct Tie as [_ Ge].
        rewrite (leb_not_ltb _ _ (leb_trans _ _ _ Lo Ge)) in Down.
        discriminate.
    + repeat split; try discriminate; trivial.
Qed.

End FloatTrend.

(** A forecast falling from 20.6 to 18.54 is a downtrend: 18.54 is
    below the float64 product of 20.6 and 0.9. *)
Lemma trend_classification_witness :
  Analyzer.trend AnalyzerSamples.falling_prediction = Forecaster.Downtrend /\
  (Analyzer.trend AnalyzerSamples.falling_prediction = Forecaster.Downtrend
   <-> AnalyzerDesign.below_band
         (Analyzer.start_sales AnalyzerSamples.falling)
         (Analyzer.end_sales AnalyzerSamples.falling) = true).
Proof.
  split; [reflexivity|].
  apply (trend_classification AnalyzerSamples.five_units
           AnalyzerSamples.falling AnalyzerSamples.falling_prediction);
    vm_compute; reflexivity.
Defined.

(** C7, counterexample.  On a forecast that stays at -10, start and end
    are equal, the end is above [start * 1.1] and below [start * 0.9] at
    once, and the trend is 'uptrend'. *)
Lemma trend_flat_negative :
  Analyzer.analyze AnalyzerSamples.five_units AnalyzerSamples.flat_negative
  = Exc.Ret AnalyzerSamples.flat_negative_prediction /\
  Analyzer.trend AnalyzerSamples.flat_negative_prediction
  = Forecaster.Uptrend /\
  PrimFloat.eqb (Analyzer.end_sales AnalyzerSamples.flat_negative)
    (Analyzer.start_sales AnalyzerSamples.flat_negative) = true /\
  AnalyzerDesign.above_band
    (Analyzer.start_sales AnalyzerSamples.flat_negative)
    (Analyzer.end_sales AnalyzerSamples.flat_negative) = true /\
  AnalyzerDesign.below_band
    (Analyzer.start_sales AnalyzerSamples.flat_negative)
    (Analyzer.end_sales AnalyzerSamples.flat_negative) = true.
Proof. repeat split; vm_compute; reflexivity. Qed.

(** The analysis at work on float64: ten subtractions of 0.1 from a
    stock of 1 leave a stock above zero, so a forecast without further
    demand never depletes it; an interval of 1.8 a day has a mean
    width just below 1.8 and gives confidence 'high' for a stock of 9;
    and the three examples of the design document for the trend. *)

Section FloatExamples.
Import PrimFloat Analyzer AnalyzerSamples.
Import Forecaster(Trend(..), Confidence(..)).
#[local] Set Warnings "-inexact-float".
Local Open Scope float_scope.

Example analysis_examples :
  depletion_loop 1 tenths_then_nothing = None /\
  confidence_score 9 wide_interval = High /\
  classify_trend 10 12 = Uptrend /\
  classify_trend 10 9.5 = Stable /\
  classify_trend 10 8 = Downtrend.
Proof. repeat split; vm_compute; reflexivity. Qed.

End FloatExamples.

(** ** The frame: grouping and resampling *)

Section FrameGroups.
Import Frame FrameDesign.

Context (L : Library).




















End FrameGroups.

(** ** The normalised series *)

Section FrameShape.
Import Frame FrameDesign.

Context (L : Library).

Variable ds_col : RawObservation L -> option (DateCell L).
Variable y_col : RawObservation L -> option (QtyCell L).
Variable parse : option (DateCell L) -> option Z.
Variable coerce : option (QtyCell L) -> option (num L).



End FrameShape.

Section FrameInvariant.
Import Frame FrameDesign.

Context (L : Library).





End FrameInvariant.

Section FrameNormalization.
Import Frame FrameDesign.

Context (L : Library).

(** The sum of no value at all is 0. *)
Hypothesis empty_sum : group_sum L [] = zero L.


End FrameNormalization.


(** ** When a history is rejected *)

Section FrameRejection.
Import Frame FrameDesign.

Context (L : Library).




End FrameRejection.

(** ** The prediction window (lines 64-73 and 107-114) *)

Section Adapter30.
Import Frame Analyzer.

Context (L : Library).
Variables Model Rng : Type.
Variable fit : list (Z * num L) -> Rng -> Exc.t Model * Rng.
Variable predict : Model -> list Z -> Rng -> Exc.t (list ForecastRow) * Rng.

(** [m.predict(future)] answers one row for each date of [future]. *)
Hypothesis predict_rows : forall m dates g out g',
  predict m dates g = (Exc.Ret out, g') -> map ds out = dates.


Lemma map_tail {A B} (f : A -> B) n l :
  map f (Num.tail n l) = Num.tail n (map f l).
Proof. unfold Num.tail. now rewrite skipn_map, length_map. Qed.


Lemma generate_forecast_cases qty history g :
  match _preprocess_data L history with
  | None =>
      generate_forecast L Model Rng fit predict qty history g
      = (InsufficientData, g)
  | Some df =>
      match forecast_of L Model Rng fit predict df g with
      | (Exc.Raise e, g') =>
          generate_forecast L Model Rng fit predict qty history g
          = (ModelError e, g')
      | (Exc.Ret out, g') =>
          match analyze qty (Num.tail 30 out) with
          | Exc.Ret p =>
              generate_forecast L Model Rng fit predict qty history g
              = (Success p, g')
          | Exc.Raise e =>
              generate_forecast L Model Rng fit predict qty history g
              = (ModelError e, g')
          end
      end
  end.
Proof.
  unfold generate_forecast.
  destruct (_preprocess_data L history) as [df|]; [|reflexivity].
  destruct (forecast_of L Model Rng fit predict df g) as [[out|e] g'];
    simpl; [|reflexivity].
  destruct (analyze qty (Num.tail 30 out)); reflexivity.
Qed.


End Adapter30.


(** ** The order of the products *)

Section PointForecast.
Import PrimFloat Float64 Analyzer OrchestratorDesign.

Lemma points_yhat f : map yhat f = map snd (map point f).
Proof. rewrite map_map. reflexivity. Qed.

Lemma points_depletion f1 : forall f2 q,
  map point f1 = map point f2 -> depletion_loop q f1 = depletion_loop q f2.
Proof.
  induction f1 as [|r1 f1 IH]; intros [|r2 f2] q E; try discriminate;
    [reflexivity|].
  injection E as Ed Ey E. simpl. rewrite Ed, Ey.
  destruct (_ <=? _)%float; [reflexivity|]. now apply IH.
Qed.

Lemma points_head n f1 f2 :
  map point f1 = map point f2 ->
  map yhat (Num.head n f1) = map yhat (Num.head n f2).
Proof.
  intros E. unfold Num.head.
  now rewrite <- !firstn_map, !points_yhat, E.
Qed.

Lemma points_tail n f1 f2 :
  map point f1 = map point f2 ->
  map yhat (Num.tail n f1) = map yhat (Num.tail n f2).
Proof. intros E. now rewrite !map_tail, !points_yhat, E. Qed.

(** The analysis of two forecasts with the same dates and point
    estimates: both raise, or both settle the same. *)
Lemma analyze_points qty f1 f2 id :
  map point f1 = map point f2 ->
  summary (analyze qty f1) id = summary (analyze qty f2) id.
Proof.
  intros E. unfold analyze.
  assert (D : predicted_demand f1 = predicted_demand f2).
  { unfold predicted_demand. now rewrite !points_yhat, E. }
  assert (T : classify_trend (start_sales f1) (end_sales f1)
              = classify_trend (start_sales f2) (end_sales f2)).
  { unfold start_sales, end_sales.
    now rewrite (points_head 5 _ _ E), (points_tail 5 _ _ E). }
  assert (P : map point (Num.tail 30 f1) = map point (Num.tail 30 f2))
    by (now rewrite !map_tail, E).
  destruct qty as [q|]; [|reflexivity].
  rewrite D, T, (points_depletion _ _ q E).
  destruct (int_of_float (predicted_demand f2)); simpl; [|reflexivity].
  unfold settled_prediction. simpl. now rewrite P.
Qed.

End PointForecast.

Section ProductOrder.
Import Frame Analyzer Orchestrator OrchestratorDesign.
Import App(Stats, Build_Stats, uptrend, downtrend, critical, bump, is_uptrend,
           is_downtrend, truthy_date).
Import Design(count).

Context (L : Library).
Variables Model Rng : Type.
Variable fit : list (Z * num L) -> Rng -> Exc.t Model * Rng.
Variable predict : Model -> list Z -> Rng -> Exc.t (list ForecastRow) * Rng.

(** The random generator has no part in the fit, nor in the dates and
    the point estimates of a forecast. *)
Hypothesis fit_settled : forall df g g',
  fitted (fst (fit df g)) = fitted (fst (fit df g')).
Hypothesis predict_settled : forall m dates g g',
  points_of (fst (predict m dates g)) = points_of (fst (predict m dates g')).

Lemma forecast_of_settled df g g' :
  points_of (fst (forecast_of L Model Rng fit predict df g))
  = points_of (fst (forecast_of L Model Rng fit predict df g')).
Proof.
  unfold forecast_of. pose proof (fit_settled df g g') as F.
  destruct (fit df g) as [[m|e] g1], (fit df g') as [[m'|e'] g1'];
    simpl in F; try discriminate; [|reflexivity].
  injection F as <-. apply predict_settled.
Qed.

Lemma generate_forecast_settled qty history id g g' :
  settled_outcome id
    (fst (generate_forecast L Model Rng fit predict qty history g))
  = settled_outcome id
      (fst (generate_forecast L Model Rng fit predict qty history g')).
Proof.
  pose proof (generate_forecast_cases L Model Rng fit predict qty history g)
    as C.
  pose proof (generate_forecast_cases L Model Rng fit predict qty history g')
    as C'.
  destruct (_preprocess_data L history) as [df|];
    [|rewrite C, C'; reflexivity].
  pose proof (forecast_of_settled df g g') as F.
  destruct (forecast_of L Model Rng fit predict df g) as [[out|e] g1],
           (forecast_of L Model Rng fit predict df g') as [[out'|e'] g1'];
    simpl in F; try discriminate.
  - injection F as F.
    assert (P : map point (Num.tail 30 out) = map point (Num.tail 30 out'))
      by (now rewrite !map_tail, F).
    pose proof (analyze_points qty _ _ id P) as A.
    destruct (analyze qty (Num.tail 30 out)),
             (analyze qty (Num.tail 30 out'));
      rewrite C, C'; exact A.
  - rewrite C, C'. reflexivity.
Qed.

Lemma count_app {A} (f : A -> bool) l1 l2 :
  count f (l1 ++ l2) = (count f l1 + count f l2)%nat.
Proof. unfold count. now rewrite filter_app, length_app. Qed.

Lemma count_perm {A} (f : A -> bool) l l' :
  Permutation l l' -> count f l = count f l'.
Proof.
  induction 1 as [|x l l' _ IH|x y l|l l' l'' _ IH1 _ IH2].
  - reflexivity.
  - rewrite !count_cons. lia.
  - rewrite !count_cons. lia.
  - congruence.
Qed.

Lemma tally_perm l l' : Permutation l l' -> tally l = tally l'.
Proof.
  intros P. unfold tally.
  now rewrite !(count_perm _ _ _ P).
Qed.

Lemma loop_body_settled g0 updates stats g p :
  stats = tally (map settled updates) ->
  let '(updates', stats', _) :=
    loop_body L Model Rng fit predict (updates, stats, g) p in
  stats' = tally (map settled updates') /\
  map settled updates'
  = map settled updates ++ contribution L Model Rng fit predict g0 p.
Proof.
  intros S. unfold loop_body, contribution.
  pose proof (generate_forecast_settled
                match quantity p with
                | Some q => q
                | None => QtyNumber PrimFloat.zero
                end
                match history p with Some h => h | None => [] end
                (_id p) g g0) as E.
  fold (predict_product L Model Rng fit predict p g) in E.
  fold (predict_product L Model Rng fit predict p g0) in E.
  rewrite <- E.
  destruct (predict_product L Model Rng fit predict p g) as [[| e |pr] g1];
    simpl.
  - rewrite app_nil_r. now split.
  - rewrite app_nil_r. now split.
  - rewrite map_app. simpl. split; [|reflexivity].
    rewrite S. unfold tally. rewrite !count_app.
    unfold count, settled, settled_prediction, bump. simpl.
    f_equal;
      match goal with |- context [if ?b then _ else _] => destruct b end;
      simpl; lia.
Qed.

Lemma product_loop_settled g0 products : forall updates stats g,
  stats = tally (map settled updates) ->
  let '(updates', stats', _) :=
    fold_left (loop_body L Model Rng fit predict) products
      (updates, stats, g) in
  stats' = tally (map settled updates') /\
  map settled updates'
  = map settled updates
    ++ flat_map (contribution L Model Rng fit predict g0) products.
Proof.
  induction products as [|p products IH]; intros updates stats g S.
  - simpl. rewrite app_nil_r. now split.
  - cbn [fold_left flat_map].
    pose proof (loop_body_settled g0 updates stats g p S) as B.
    destruct (loop_body L Model Rng fit predict (updates, stats, g) p)
      as [[u1 s1] g1].
    destruct B as [S1 U1].
    specialize (IH u1 s1 g1 S1).
    destruct (fold_left _ products (u1, s1, g1)) as [[u2 s2] g2].
    simpl in IH. destruct IH as [S2 U2]. split; [exact S2|].
    now rewrite U2, U1, <- app_assoc.
Qed.

(** C9.  The order of the products.  When the random generator has no
    part in the fit nor in the dates and point estimates of a forecast,
    a batch and any permutation of it, run from any two states of the
    generator, give the same uptrend, downtrend and critical totals and,
    up to their order, the same updates as to product, stock-out date,
    monthly demand, trend and forecast points. *)
Theorem batch_order_irrelevant (products products' : list (Product L))
    (g g' : Rng) :
  Permutation products products' ->
  let run := product_loop L Model Rng fit predict products g in
  let run' := product_loop L Model Rng fit predict products' g' in
  snd (fst run) = snd (fst run') /\
  Permutation (map settled (fst (fst run))) (map settled (fst (fst run'))).
Proof.
  intros P run run'. unfold run, run', product_loop.
  pose proof (product_loop_settled g products []
                {| uptrend := 0; downtrend := 0; critical := 0 |} g eq_refl)
    as R.
  pose proof (product_loop_settled g products' []
                {| uptrend := 0; downtrend := 0; critical := 0 |} g' eq_refl)
    as R'.
  destruct (fold_left _ products _) as [[u s] g1].
  destruct (fold_left _ products' _) as [[u' s'] g1'].
  destruct R as [S U], R' as [S' U']. simpl in *.
  assert (PU : Permutation (map settled u) (map settled u')).
  { rewrite U, U'. now apply Permutation_flat_map. }
  split; [|exact PU].
  rewrite S, S'. now apply tally_perm.
Qed.

End ProductOrder.

(** The stand-in model on two products, in both orders. *)
Lemma batch_order_irrelevant_witness :
  let run := Orchestrator.product_loop FrameSamples.floats _ _
               EngineSamples.toy_fit EngineSamples.toy_predict
               [EngineSamples.product_1; EngineSamples.product_2] 0 in
  let run' := Orchestrator.product_loop FrameSamples.floats _ _
                EngineSamples.toy_fit EngineSamples.toy_predict
                [EngineSamples.product_2; EngineSamples.product_1] 0 in
  snd (fst run) = snd (fst run') /\
  Permutation (map OrchestratorDesign.settled (fst (fst run)))
    (map OrchestratorDesign.settled (fst (fst run'))).
Proof.
  apply (batch_order_irrelevant FrameSamples.floats _ _
           EngineSamples.toy_fit EngineSamples.toy_predict).
  - intros df g g'. unfold EngineSamples.toy_fit.
    match goal with
    | |- context [existsb ?f ?l] => destruct (existsb f l)
    end; reflexivity.
  - intros m dates g g'. unfold EngineSamples.toy_predict. simpl.
    rewrite !map_map. reflexivity.
  - apply perm_swap.
Defined.

(** C9, counterexample.  With a model whose interval depends on the
    state of the random generator, two products with the same stock and
    history get the confidence labels 'high' and 'low' in the order in
    which they are processed, so the two orders do not give the same
    updates. *)
Lemma batch_order_matters :
  Permutation [EngineSamples.product_1; EngineSamples.product_2]
    [EngineSamples.product_2; EngineSamples.product_1] /\
  map (fun u => (Orchestrator.upd_id u,
                 Analyzer.confidence (Orchestrator.prediction u)))
    (EngineSamples.updates_of
       [EngineSamples.product_1; EngineSamples.product_2] 0)
  = [(1%N, Forecaster.High); (2%N, Forecaster.Low)] /\
  map (fun u => (Orchestrator.upd_id u,
                 Analyzer.confidence (Orchestrator.prediction u)))
    (EngineSamples.updates_of
       [EngineSamples.product_2; EngineSamples.product_1] 0)
  = [(2%N, Forecaster.High); (1%N, Forecaster.Low)] /\
  ~ Permutation
      (EngineSamples.updates_of
         [EngineSamples.product_1; EngineSamples.product_2] 0)
      (EngineSamples.updates_of
         [EngineSamples.product_2; EngineSamples.product_1] 0).
Proof.
  split; [apply perm_swap|].
  split; [vm_compute; reflexivity|].
  split; [vm_compute; reflexivity|].
  intros P.
  apply (Permutation_map
           (fun u => (Orchestrator.upd_id u,
                      Analyzer.confidence (Orchestrator.prediction u))))
    in P.
  vm_compute in P.
  apply (Permutation_in (1%N, Forecaster.High)) in P; [|now left].
  destruct P as [E|[E|[]]]; discriminate E.
Qed.
